(** * glview-kit: the RenderingTester wrapper around infogl.dll

    A shallow embedding of [src/RenderingTester.cpp] (with its header
    [RenderingTester.h]), of the SDK header [include/oevSDK.h] and of the
    display-mode helper of the older sample [src/oevTest.cpp], followed by
    the properties the specification states about them.

    Conventions.
    - A C++ [int] is a [Z]; every conversion the source performs
      ([static_cast<int>], comparison of an [int] with a [DWORD]) is written
      out with [to_int] / [to_uint].
    - [std::string] is [string]; a nullable [const char*] is [option string].
    - A value of an [enum class] is its underlying [int]; the enumerators
      are names for the values the header gives them, and a [switch] over
      an enumeration keeps its [default:] branch.
    - Windows and the closed library are an oracle record ([Platform]) over
      an abstract process state; member functions run in a small state monad
      over the whole machine (tester object, process state, call trace).  *)

From Stdlib Require Import ZArith String Ascii List Bool Lia DecimalString.
From Stdlib Require DecimalPos DecimalZ.
From Equations Require Import Equations.
From Equations.Prop Require Import Logic.
Import ListNotations.

Local Open Scope string_scope.
Local Open Scope Z_scope.

(* ================================================================== *)
(** ** Machine integers and [std::to_string] *)

Module MachineInt.

Definition INT_MAX : Z := 2147483647.
Definition INT_MIN : Z := -2147483648.

(** Conversion to a 32-bit [int] (two's complement, as MSVC and C++20
    define it for out-of-range values). *)
Definition to_int (z : Z) : Z := (z + 2 ^ 31) mod 2 ^ 32 - 2 ^ 31.

(** Conversion to a 32-bit unsigned value ([DWORD], [unsigned long]). *)
Definition to_uint (z : Z) : Z := z mod 2 ^ 32.

(** [std::to_string(int)]: optional minus sign and decimal digits. *)
Definition to_string (z : Z) : string := NilZero.string_of_int (Z.to_int z).

End MachineInt.
Import MachineInt.

(* ================================================================== *)
(** ** Strings: concatenation and substring search *)

Module Text.

(** [contains sub s]: [sub] occurs in [s] ([std::string::find] succeeds). *)
Fixpoint contains (sub s : string) : bool :=
  match s with
  | EmptyString => prefix sub s
  | String _ s' => prefix sub s || contains sub s'
  end.

(** [no_lt s]: the character [<] does not occur in [s]. *)
Fixpoint no_lt (s : string) : bool :=
  match s with
  | EmptyString => true
  | String c s' => negb (Ascii.eqb c "<") && no_lt s'
  end.

End Text.
Import Text.

(* ================================================================== *)
(** ** The part of Win32 the wrapper talks to *)

Module Win32.

(** Handles and procedure addresses; [0] is the null pointer. *)
Definition HMODULE := Z.
Definition FARPROC := Z.

Definition is_null (p : Z) : bool := p =? 0.

(** The two fields of [DEVMODE] the code reads; both are [DWORD]s. *)
Record DEVMODE : Type := mkDEVMODE {
  dmPelsWidth  : Z;
  dmPelsHeight : Z
}.

(** [EnumDisplaySettings(nullptr, n, &devmode)] over the list of modes
    the display driver reports: mode [n] when there is one, failure
    (zero) for every index past the last mode. *)
Definition EnumDisplaySettings (modes : list DEVMODE) (n : Z) : option DEVMODE :=
  if n <? 0 then None else nth_error modes (Z.to_nat n).

End Win32.
Import Win32.

(* ================================================================== *)
(** ** include/oevSDK.h *)

Module oevSDK.

Definition WGLDIAG_OPTION_ANISO           : Z := 1.
Definition WGLDIAG_OPTION_MULTISAMPLE     : Z := Z.shiftl 1 1.
Definition WGLDIAG_OPTION_PBUFFER         : Z := Z.shiftl 1 2.
Definition WGLDIAG_OPTION_MULTISAMPLEHINT : Z := Z.shiftl 1 3.
Definition WGLDIAG_OPTION_LODBIAS         : Z := Z.shiftl 1 4.
Definition WGLDIAG_OPTION_FOG             : Z := Z.shiftl 1 5.
Definition WGLDIAG_OPTION_FBO             : Z := Z.shiftl 1 6.
Definition WGLDIAG_OPTION_ARGB            : Z := Z.shiftl 1 7.
Definition WGLDIAG_OPTION_FB_FLOAT32      : Z := Z.shiftl 1 8.
Definition WGLDIAG_OPTION_CLIP_PLANE      : Z := Z.shiftl 1 10.
Definition WGLDIAG_OPTION_FS              : Z := Z.shiftl 1 11.
Definition WGLDIAG_OPTION_VSYNC           : Z := Z.shiftl 1 12.
Definition WGLDIAG_OPTION_TRANSPARENCY    : Z := Z.shiftl 1 13.
Definition WGLDIAG_OPTION_MIPMAP          : Z := Z.shiftl 1 14.
Definition WGLDIAG_OPTION_RETINADISPLAY   : Z := Z.shiftl 1 15.
Definition WGLDIAG_OPTION_MPENGINE        : Z := Z.shiftl 1 16.
Definition WGLDIAG_OPTION_INSTANCING      : Z := Z.shiftl 1 17.
Definition WGLDIAG_OPTION_VBUM            : Z := Z.shiftl 1 18.
Definition WGLDIAG_OPTION_DEBUG           : Z := Z.shiftl 1 20.

(** [struct gvRenderingTestResult]; [fps] is a C [float], kept abstract. *)
#[warnings="-register-all"]
Inductive gvRenderingTestResult (float : Type) : Type :=
  mk_gvRenderingTestResult {
    structSize : Z;
    index      : Z;
    duration   : Z;
    fps        : float;
    result     : option string;
    next       : option (gvRenderingTestResult float)
  }.
Arguments mk_gvRenderingTestResult {float}.
Arguments structSize {float}.
Arguments index {float}.
Arguments duration {float}.
Arguments fps {float}.
Arguments result {float}.
Arguments next {float}.

(** [struct gvCpuid]: only [Specification] is read by the wrapper. *)
Record gvCpuid : Type := mk_gvCpuid {
  Specification : string
}.

End oevSDK.
Import oevSDK.

(* ================================================================== *)
(** ** src/oevTest.cpp: the display-mode helper of the older sample

    [GetDisplayMode] as a transition system over its program points, so
    that "never returns" and "unreachable" can be stated.  The display
    driver reports a fixed list of modes while the function runs. *)

Module oevTest.

(** Program points of [GetDisplayMode]. *)
Inductive Point : Type :=
| ForHead      (* for (;;) {                                            *)
| WhileTest    (*   while (EnumDisplaySettings(nullptr, n, &devmode)) { *)
| WhileBody    (*     if (width == ... && height == ...) return n; n++; *)
| AfterFor.    (* } return -1;                                          *)

(** The local variables. *)
Record Locals : Type := mkLocals {
  n       : Z;
  devmode : DEVMODE
}.

Inductive Config : Type :=
| Running (pc : Point) (l : Locals)
| Returned (value : Z).

(** [width == devmode.dmPelsWidth && height == devmode.dmPelsHeight]:
    an [int] compared with a [DWORD] is converted to unsigned first. *)
Definition size_matches (width height : Z) (dm : DEVMODE) : bool :=
  (to_uint width =? dmPelsWidth dm) && (to_uint height =? dmPelsHeight dm).

(** One step of [GetDisplayMode].  The [for (;;)] has no condition and its
    body no [break]: the only edge out of the inner loop leads back to the
    head of the outer one. *)
Definition step (modes : list DEVMODE) (width height : Z) (c : Config) : Config :=
  match c with
  | Returned v => Returned v
  | Running ForHead l => Running WhileTest l
  | Running WhileTest l =>
      match EnumDisplaySettings modes (n l) with
      | Some dm => Running WhileBody (mkLocals (n l) dm)
      | None => Running ForHead l
      end
  | Running WhileBody l =>
      if size_matches width height (devmode l)
      then Returned (n l)
      else Running WhileTest (mkLocals (n l + 1) (devmode l))
  | Running AfterFor l => Returned (-1)
  end.

(** [int n = 0; DEVMODE devmode = { 0 };] and entry into the loop. *)
Definition GetDisplayMode_start : Config :=
  Running ForHead (mkLocals 0 (mkDEVMODE 0 0)).

Fixpoint run (modes : list DEVMODE) (width height : Z) (fuel : nat) (c : Config)
  : Config :=
  match fuel with
  | O => c
  | S fuel' => run modes width height fuel' (step modes width height c)
  end.

(** [GetDisplayMode] run for [fuel] steps. *)
Definition GetDisplayMode (modes : list DEVMODE) (width height : Z) (fuel : nat)
  : Config :=
  run modes width height fuel GetDisplayMode_start.

(** No mode with an index below [k] has the requested size. *)
Definition no_match_below (modes : list DEVMODE) (width height : Z) (k : Z)
  : Prop :=
  forall (j : Z) (dm : DEVMODE),
    0 <= j < k ->
    nth_error modes (Z.to_nat j) = Some dm ->
    size_matches width height dm = false.

(** What holds at each program point of every run. *)
Definition invariant (modes : list DEVMODE) (width height : Z) (c : Config)
  : Prop :=
  match c with
  | Running ForHead l | Running WhileTest l =>
      0 <= n l /\ no_match_below modes width height (n l)
  | Running WhileBody l =>
      0 <= n l
      /\ nth_error modes (Z.to_nat (n l)) = Some (devmode l)
      /\ no_match_below modes width height (n l)
  | Running AfterFor _ => False
  | Returned v =>
      0 <= v
      /\ exists dm, nth_error modes (Z.to_nat v) = Some dm
                    /\ size_matches width height dm = true
  end.

End oevTest.

(* ================================================================== *)
(** ** RenderingTester.h: the data model *)

Module RenderTest.

(** An [enum class] has the underlying type [int] and holds any value of
    it ([static_cast<RendererType>(99)] is a [RendererType]); its
    enumerators name the values from [0] on, in the order of declaration.
    A value of the enumeration is its underlying value, an enumerator a
    name for one. *)
Definition RendererType : Type := Z.
Abbreviation GDI        := 0 (only parsing).
Abbreviation OpenGL_2_0 := 1 (only parsing).
Abbreviation OpenGL_3_0 := 2 (only parsing).
Abbreviation OpenGL_3_1 := 3 (only parsing).
Abbreviation OpenGL_3_2 := 4 (only parsing).
Abbreviation OpenGL_3_3 := 5 (only parsing).
Abbreviation OpenGL_4_0 := 6 (only parsing).
Abbreviation OpenGL_4_1 := 7 (only parsing).
Abbreviation OpenGL_4_2 := 8 (only parsing).
Abbreviation OpenGL_4_3 := 9 (only parsing).
Abbreviation OpenGL_4_4 := 10 (only parsing).
Abbreviation OpenGL_4_5 := 11 (only parsing).
Abbreviation OpenGL_4_6 := 12 (only parsing).
Abbreviation Vulkan_1_0 := 13 (only parsing).
Abbreviation Vulkan_1_1 := 14 (only parsing).
Abbreviation Vulkan_1_2 := 15 (only parsing).

Definition SceneType : Type := Z.
Abbreviation SingleCube     := 0 (only parsing).
Abbreviation ManyCubes      := 1 (only parsing).
Abbreviation Character      := 2 (only parsing).
Abbreviation ManyCharacters := 3 (only parsing).
Abbreviation Raytracing     := 4 (only parsing).

Definition FramebufferFormat : Type := Z.
Abbreviation RGB_Linear := 0 (only parsing).
Abbreviation sRGB       := 1 (only parsing).
Abbreviation HDR        := 2 (only parsing).

Definition FramebufferType : Type := Z.
Abbreviation Default           := 0 (only parsing).
Abbreviation PixelBuffer       := 1 (only parsing).
Abbreviation FramebufferObject := 2 (only parsing).

(** The enumerators of each enumeration. *)
Definition RendererType_enumerators : list RendererType :=
  [ GDI; OpenGL_2_0; OpenGL_3_0; OpenGL_3_1; OpenGL_3_2; OpenGL_3_3;
    OpenGL_4_0; OpenGL_4_1; OpenGL_4_2; OpenGL_4_3; OpenGL_4_4; OpenGL_4_5;
    OpenGL_4_6; Vulkan_1_0; Vulkan_1_1; Vulkan_1_2 ].

Definition SceneType_enumerators : list SceneType :=
  [ SingleCube; ManyCubes; Character; ManyCharacters; Raytracing ].

Definition FramebufferFormat_enumerators : list FramebufferFormat :=
  [ RGB_Linear; sRGB; HDR ].

Definition FramebufferType_enumerators : list FramebufferType :=
  [ Default; PixelBuffer; FramebufferObject ].

(** [static_cast<int>] of a value of the enumeration: its underlying
    value. *)
Definition RendererType_to_int (r : RendererType) : Z := r.

Definition SceneType_to_int (s : SceneType) : Z := s.

Record TestConfig : Type := mkTestConfig {
  renderer            : RendererType;
  fullscreen          : bool;
  width               : Z;
  height              : Z;
  vsync               : bool;
  fog                 : bool;
  transparency        : bool;
  userClipPlane       : bool;
  multisampleCount    : Z;
  maxAnisotropy       : Z;
  textureLOD          : Z;
  fbFormat            : FramebufferFormat;
  fbType              : FramebufferType;
  scene               : SceneType;
  testDurationSeconds : Z;
  enableDebugOutput   : bool;
  pixelFormat         : Z
}.

(** The default member initialisers of [struct TestConfig]. *)
Definition TestConfig_default : TestConfig :=
  {| renderer := OpenGL_4_6;
     fullscreen := false; width := 1920; height := 1080; vsync := false;
     fog := false; transparency := false; userClipPlane := false;
     multisampleCount := 0; maxAnisotropy := 0; textureLOD := 0;
     fbFormat := RGB_Linear; fbType := Default;
     scene := SingleCube; testDurationSeconds := 10;
     enableDebugOutput := false;
     pixelFormat := 1 |}.

(** Functional record updates used by the factory functions. *)
Definition set_renderer (v : RendererType) (c : TestConfig) : TestConfig :=
  mkTestConfig v (fullscreen c) (width c) (height c) (vsync c) (fog c)
    (transparency c) (userClipPlane c) (multisampleCount c) (maxAnisotropy c)
    (textureLOD c) (fbFormat c) (fbType c) (scene c) (testDurationSeconds c)
    (enableDebugOutput c) (pixelFormat c).
Definition set_width (v : Z) (c : TestConfig) : TestConfig :=
  mkTestConfig (renderer c) (fullscreen c) v (height c) (vsync c) (fog c)
    (transparency c) (userClipPlane c) (multisampleCount c) (maxAnisotropy c)
    (textureLOD c) (fbFormat c) (fbType c) (scene c) (testDurationSeconds c)
    (enableDebugOutput c) (pixelFormat c).
Definition set_height (v : Z) (c : TestConfig) : TestConfig :=
  mkTestConfig (renderer c) (fullscreen c) (width c) v (vsync c) (fog c)
    (transparency c) (userClipPlane c) (multisampleCount c) (maxAnisotropy c)
    (textureLOD c) (fbFormat c) (fbType c) (scene c) (testDurationSeconds c)
    (enableDebugOutput c) (pixelFormat c).
Definition set_scene (v : SceneType) (c : TestConfig) : TestConfig :=
  mkTestConfig (renderer c) (fullscreen c) (width c) (height c) (vsync c) (fog c)
    (transparency c) (userClipPlane c) (multisampleCount c) (maxAnisotropy c)
    (textureLOD c) (fbFormat c) (fbType c) v (testDurationSeconds c)
    (enableDebugOutput c) (pixelFormat c).
Definition set_testDurationSeconds (v : Z) (c : TestConfig) : TestConfig :=
  mkTestConfig (renderer c) (fullscreen c) (width c) (height c) (vsync c) (fog c)
    (transparency c) (userClipPlane c) (multisampleCount c) (maxAnisotropy c)
    (textureLOD c) (fbFormat c) (fbType c) (scene c) v
    (enableDebugOutput c) (pixelFormat c).

(** [RenderingTester::CreateDefaultConfig]. *)
Definition CreateDefaultConfig : TestConfig :=
  let config := TestConfig_default in
  let config := set_renderer OpenGL_4_6 config in
  let config := set_width 1920 config in
  let config := set_height 1080 config in
  let config := set_scene SingleCube config in
  let config := set_testDurationSeconds 5 config in
  config.

(* ---------------------------------------------------------------- *)
(** *** Pure helpers of the serializer *)

Definition LF : string := String (ascii_of_nat 10) EmptyString.

(** [RenderingTester::CreateXMLElement]. *)
Definition CreateXMLElement (name value : string) : string :=
  "<" ++ name ++ ">" ++ value ++ "</" ++ name ++ ">" ++ LF.

(** [RenderingTester::GetTestVersionString]. *)
Definition GetTestVersionString (renderer : RendererType) : string :=
  match renderer with
  | GDI | OpenGL_2_0 => "2.0"
  | OpenGL_3_0 => "3.0"
  | OpenGL_3_1 => "3.1"
  | OpenGL_3_2 => "3.2"
  | OpenGL_3_3 => "3.3"
  | OpenGL_4_0 => "4.0"
  | OpenGL_4_1 => "4.1"
  | OpenGL_4_2 => "4.2"
  | OpenGL_4_3 => "4.3"
  | OpenGL_4_4 => "4.4"
  | OpenGL_4_5 => "4.5"
  | OpenGL_4_6 => "4.6"
  | Vulkan_1_0 | Vulkan_1_1 | Vulkan_1_2 => "1.0"
  | _ => "4.6"
  end.

(** [RenderingTester::FramebufferFormatToString]. *)
Definition FramebufferFormatToString (format : FramebufferFormat) : string :=
  match format with
  | RGB_Linear => "Linear"
  | sRGB => "sRGB"
  | HDR => "HDR"
  | _ => "Linear"
  end.

(** [RenderingTester::FramebufferTypeToString]. *)
Definition FramebufferTypeToString (type : FramebufferType) : string :=
  match type with
  | Default => "Default"
  | PixelBuffer => "PixelBuffer"
  | FramebufferObject => "FrameBufferObject"
  | _ => "Default"
  end.

Module Utils.

(** The loop of [Utils::FindDisplayMode], entered with the current
    [modeIndex]:
    [while (EnumDisplaySettings(nullptr, modeIndex, &displayMode))]
    returns the index of the first mode whose size equals the request
    and [-1] once the enumeration fails.  It terminates because the
    enumeration fails past the last mode. *)
Equations? FindDisplayMode_loop (modes : list DEVMODE)
           (width height modeIndex : Z) : Z
  by wf (Z.to_nat (Z.of_nat (length modes) - modeIndex)) lt :=
  FindDisplayMode_loop modes width height modeIndex
    with inspect (EnumDisplaySettings modes modeIndex) => {
    | exist _ (Some displayMode) _ =>
        if (width =? to_int (dmPelsWidth displayMode))
           && (height =? to_int (dmPelsHeight displayMode))
        then modeIndex
        else FindDisplayMode_loop modes width height (modeIndex + 1);
    | exist _ None _ => -1 }.
Proof.
  unfold EnumDisplaySettings in e.
  destruct (modeIndex <? 0) eqn:Hneg; [discriminate |].
  apply Z.ltb_ge in Hneg.
  assert (Z.to_nat modeIndex < length modes)%nat
    by (apply nth_error_Some; congruence).
  lia.
Qed.

(** [Utils::FindDisplayMode]: [int modeIndex = 0;] then the loop. *)
Definition FindDisplayMode (modes : list DEVMODE) (width height : Z) : Z :=
  FindDisplayMode_loop modes width height 0.

(** The test of the loop of [Utils::FindDisplayMode] on one mode. *)
Definition mode_matches (width height : Z) (displayMode : DEVMODE) : bool :=
  (width =? to_int (dmPelsWidth displayMode))
  && (height =? to_int (dmPelsHeight displayMode)).

(** Position of the first mode of [rest] that has the requested size,
    counted from [index]; [-1] when there is none. *)
Fixpoint first_match_from (rest : list DEVMODE) (width height index : Z) : Z :=
  match rest with
  | [] => -1
  | displayMode :: rest' =>
      if mode_matches width height displayMode then index
      else first_match_from rest' width height (index + 1)
  end.

(** [Utils::RendererTypeToString]. *)
Definition RendererTypeToString (type : RendererType) : string :=
  match type with
  | GDI => "GDI"
  | OpenGL_2_0 => "OpenGL 2.0"
  | OpenGL_3_0 => "OpenGL 3.0"
  | OpenGL_3_1 => "OpenGL 3.1"
  | OpenGL_3_2 => "OpenGL 3.2"
  | OpenGL_3_3 => "OpenGL 3.3"
  | OpenGL_4_0 => "OpenGL 4.0"
  | OpenGL_4_1 => "OpenGL 4.1"
  | OpenGL_4_2 => "OpenGL 4.2"
  | OpenGL_4_3 => "OpenGL 4.3"
  | OpenGL_4_4 => "OpenGL 4.4"
  | OpenGL_4_5 => "OpenGL 4.5"
  | OpenGL_4_6 => "OpenGL 4.6"
  | Vulkan_1_0 => "Vulkan 1.0"
  | Vulkan_1_1 => "Vulkan 1.1"
  | Vulkan_1_2 => "Vulkan 1.2"
  | _ => "Unknown"
  end.

(** [Utils::SceneTypeToString]. *)
Definition SceneTypeToString (type : SceneType) : string :=
  match type with
  | SingleCube => "Single Cube"
  | ManyCubes => "Many Cubes"
  | Character => "Character"
  | ManyCharacters => "Many Characters"
  | Raytracing => "Raytracing"
  | _ => "Unknown"
  end.

End Utils.

(* ---------------------------------------------------------------- *)
(** *** Results, the tester object and the machine it runs on *)

(** [struct TestResult]; [averageFPS] is a C [double], kept abstract. *)
Record TestResult (double : Type) : Type := mkTestResult {
  testIndex    : Z;
  passed       : bool;
  averageFPS   : double;
  errorMessage : string
}.
Arguments mkTestResult {double}.
Arguments testIndex {double}.
Arguments passed {double}.
Arguments averageFPS {double}.
Arguments errorMessage {double}.

(** [class RenderingTester::Impl]. *)
Record Impl : Type := mkImpl {
  hLibrary              : HMODULE;
  funcInitWad           : FARPROC;
  funcReadCpuid         : FARPROC;
  funcRunRenderingTests : FARPROC
}.

(** The data members of [class RenderingTester]. *)
Record RenderingTester : Type := mkRenderingTester {
  m_pImpl        : Impl;
  m_dllPath      : string;
  m_resourcePath : string;
  m_lastError    : string;
  m_initialized  : bool
}.

(** One argument of a [printf]-style logging call, before formatting. *)
Inductive LogArg (double : Type) : Type :=
| ArgString (s : string)
| ArgInt (n : Z)
| ArgDouble (d : double).
Arguments ArgString {double}.
Arguments ArgInt {double}.
Arguments ArgDouble {double}.

(** What the wrapper does to the outside world, in program order. *)
Inductive Event (double : Type) : Type :=
| CallSetupDPIAwareness
| CallLoadLibraryA (path : string)
| CallGetProcAddress (h : HMODULE) (name : string)
| CallInitWad (f : FARPROC) (path : string)
| CallReadCpuid (f : FARPROC)
| CallRunRenderingTests (f : FARPROC) (xml : string)
| LogLine (prefix format : string) (args : list (LogArg double)).
Arguments CallSetupDPIAwareness {double}.
Arguments CallLoadLibraryA {double}.
Arguments CallGetProcAddress {double}.
Arguments CallInitWad {double}.
Arguments CallReadCpuid {double}.
Arguments CallRunRenderingTests {double}.
Arguments LogLine {double}.

(** Windows and infogl.dll as seen from the wrapper.  [ExtState] is the
    state of the process outside the tester object (loader, display
    driver, the library's own globals); calling through a procedure
    address is answered by the platform. *)
Record Platform (ExtState float : Type) : Type := mkPlatform {
  sys_SetupDPIAwareness : ExtState -> ExtState;
  sys_LoadLibraryA      : string -> ExtState -> HMODULE * ExtState;
  sys_GetProcAddress    : HMODULE -> string -> ExtState -> FARPROC;
  sys_display_modes     : ExtState -> list DEVMODE;
  call_oevInitWad       : FARPROC -> string -> ExtState -> Z * ExtState;
  call_oevReadCpuid     : FARPROC -> ExtState -> gvCpuid * ExtState;
  call_oevRunRenderingTests :
    FARPROC -> string -> ExtState ->
    option (gvRenderingTestResult float) * ExtState
}.
Arguments sys_SetupDPIAwareness {ExtState float}.
Arguments sys_LoadLibraryA {ExtState float}.
Arguments sys_GetProcAddress {ExtState float}.
Arguments sys_display_modes {ExtState float}.
Arguments call_oevInitWad {ExtState float}.
Arguments call_oevReadCpuid {ExtState float}.
Arguments call_oevRunRenderingTests {ExtState float}.

(** The whole machine: the tester object ([self]), the process state,
    the state a progress callback captures ([user]) and the trace. *)
Record Machine (ExtState User double : Type) : Type := mkMachine {
  self  : RenderingTester;
  ext   : ExtState;
  user  : User;
  trace : list (Event double)
}.
Arguments mkMachine {ExtState User double}.
Arguments self {ExtState User double}.
Arguments ext {ExtState User double}.
Arguments user {ExtState User double}.
Arguments trace {ExtState User double}.

(** [RenderingTester::RenderingTester(dllPath, resourcePath)]. *)
Definition RenderingTester_new (dllPath resourcePath : string) : RenderingTester :=
  {| m_pImpl := mkImpl 0 0 0 0;
     m_dllPath := dllPath;
     m_resourcePath :=
       if String.eqb resourcePath "" then "GLVIEW.RMX" else resourcePath;
     m_lastError := "";
     m_initialized := false |}.

(* ---------------------------------------------------------------- *)
(** *** Sample platforms and machines

    Concrete instances on which the model runs.  The process state is a
    counter of calls to the run-tests entry point; [float] and [double]
    are both [Z]; the captured state of the progress callback is the list
    of the calls it received. *)

(** A healthy installation: the library loads, exports its three entry
    points, accepts the resource package, and answers the first test with
    "OK", the second with an error status and every later one with null. *)
Definition sample_platform : Platform nat Z :=
  {| sys_SetupDPIAwareness := fun x => x;
     sys_LoadLibraryA := fun path x =>
       (if String.eqb path "infogl.dll" then 4194304 else 0, x);
     sys_GetProcAddress := fun h name x =>
       if String.eqb name "oevInitWad" then 4198400
       else if String.eqb name "oevReadCpuid" then 4198416
       else if String.eqb name "oevRunRenderingTests" then 4198432
       else 0;
     sys_display_modes := fun _ => [mkDEVMODE 640 480; mkDEVMODE 1920 1080];
     call_oevInitWad := fun f path x => (0, x);
     call_oevReadCpuid := fun f x => (mk_gvCpuid "Sample CPU", x);
     call_oevRunRenderingTests := fun f xml x =>
       (match x with
        | O => Some (mk_gvRenderingTestResult 32 7 5 60 (Some "OK") None)
        | S O => Some (mk_gvRenderingTestResult 32 8 5 0 (Some "GL error") None)
        | _ => None
        end, S x) |}.

(** An installation whose library lacks [oevReadCpuid]. *)
Definition sample_platform_missing_symbol : Platform nat Z :=
  {| sys_SetupDPIAwareness := fun x => x;
     sys_LoadLibraryA := fun path x =>
       (if String.eqb path "infogl.dll" then 4194304 else 0, x);
     sys_GetProcAddress := fun h name x =>
       if String.eqb name "oevInitWad" then 4198400
       else if String.eqb name "oevRunRenderingTests" then 4198432
       else 0;
     sys_display_modes := fun _ => [mkDEVMODE 640 480; mkDEVMODE 1920 1080];
     call_oevInitWad := fun f path x => (0, x);
     call_oevReadCpuid := fun f x => (mk_gvCpuid "", x);
     call_oevRunRenderingTests := fun f xml x => (None, x) |}.

(** An installation without the library: every load fails. *)
Definition sample_platform_no_library : Platform nat Z :=
  {| sys_SetupDPIAwareness := fun x => x;
     sys_LoadLibraryA := fun path x => (0, S x);
     sys_GetProcAddress := fun h name x => 0;
     sys_display_modes := fun _ => [mkDEVMODE 640 480; mkDEVMODE 1920 1080];
     call_oevInitWad := fun f path x => (0, x);
     call_oevReadCpuid := fun f x => (mk_gvCpuid "", x);
     call_oevRunRenderingTests := fun f xml x => (None, x) |}.

(** An installation whose resource package the library rejects. *)
Definition sample_platform_bad_package : Platform nat Z :=
  {| sys_SetupDPIAwareness := fun x => x;
     sys_LoadLibraryA := fun path x =>
       (if String.eqb path "infogl.dll" then 4194304 else 0, x);
     sys_GetProcAddress := fun h name x =>
       if String.eqb name "oevInitWad" then 4198400
       else if String.eqb name "oevReadCpuid" then 4198416
       else if String.eqb name "oevRunRenderingTests" then 4198432
       else 0;
     sys_display_modes := fun _ => [mkDEVMODE 640 480; mkDEVMODE 1920 1080];
     call_oevInitWad := fun f path x => (-1, x);
     call_oevReadCpuid := fun f x => (mk_gvCpuid "Sample CPU", x);
     call_oevRunRenderingTests := fun f xml x => (None, x) |}.

Definition progress_log : Type := list (Z * Z * TestResult Z).

(** A progress callback that appends what it receives to its log. *)
Definition record_progress (testIndex totalTests : Z) (currentResult : TestResult Z)
           (log : progress_log) : progress_log :=
  (log ++ [(testIndex, totalTests, currentResult)])%list.

(** A freshly constructed tester in a fresh process. *)
Definition sample_machine : Machine nat progress_log Z :=
  mkMachine (RenderingTester_new "" "") O [] [].

(** An initialised tester in a process that has already run two tests,
    so that the sample library answers the next one with null. *)
Definition sample_ready : Machine nat progress_log Z :=
  mkMachine
    (mkRenderingTester (mkImpl 4194304 4198400 4198416 4198432)
                       "" "GLVIEW.RMX" "" true)
    2%nat [] [].

(** The tester a failed [Initialize] leaves on the installation that
    lacks a symbol: last error set, one entry point unresolved. *)
Definition sample_after_failure : Machine nat progress_log Z :=
  mkMachine
    (mkRenderingTester (mkImpl 4194304 4198400 0 4198432)
                       "" "GLVIEW.RMX"
                       "Failed to load infogl.dll or required functions" false)
    O [] [].

(** A configuration with every flag of the option bitmask switched on. *)
Definition sample_all_flags : TestConfig :=
  {| renderer := Vulkan_1_2;
     fullscreen := true; width := 1920; height := 1080; vsync := true;
     fog := true; transparency := true; userClipPlane := true;
     multisampleCount := 8; maxAnisotropy := 16; textureLOD := -1;
     fbFormat := HDR; fbType := FramebufferObject;
     scene := Raytracing; testDurationSeconds := 15;
     enableDebugOutput := true;
     pixelFormat := 1 |}.

(** A configuration whose resolution the sample display does not offer. *)
Definition sample_unsupported : TestConfig :=
  set_height 600 (set_width 800 CreateDefaultConfig).

(** A configuration no user interface would produce: values cast into
    the enumerations that no enumerator names, negative sizes and counts. *)
Definition sample_out_of_range : TestConfig :=
  {| renderer := 99;
     fullscreen := false; width := -5; height := 0; vsync := false;
     fog := false; transparency := false; userClipPlane := false;
     multisampleCount := 1000000; maxAnisotropy := -16;
     textureLOD := 2147483647;
     fbFormat := 3; fbType := -1;
     scene := -3; testDurationSeconds := -10;
     enableDebugOutput := false;
     pixelFormat := 0 |}.

(** A batch of three configurations. *)
Definition sample_batch : list TestConfig :=
  [CreateDefaultConfig; sample_all_flags; CreateDefaultConfig].

(** A value for [WGLDIAG_OPTIONS_FS_EX] to run the model with. *)
Definition sample_FS_EX : Z := Z.shiftl 1 19.

(* ---------------------------------------------------------------- *)
(** *** RenderingTester.cpp *)

Section Wrapper.

Context {ExtState User float double : Type}.

(** The implicit widening [float -> double] and the literal [0.0]. *)
Variable float_to_double : float -> double.
Variable double_zero : double.

(** [WGLDIAG_OPTIONS_FS_EX] is used by the source but defined in no
    file of the repository: its value (as an [int]) is a parameter. *)
Variable WGLDIAG_OPTIONS_FS_EX : Z.

Variable plat : Platform ExtState float.

Local Abbreviation machine := (Machine ExtState User double).

(** State monad over the machine. *)
Definition M (A : Type) : Type := machine -> A * machine.

Definition ret {A : Type} (a : A) : M A := fun m => (a, m).

Definition bind {A B : Type} (c : M A) (k : A -> M B) : M B :=
  fun m => let r := c m in k (fst r) (snd r).

Notation "x <- c ;; k" := (bind c (fun x => k))
  (at level 61, c at next level, right associativity).
Notation "c ;;; k" := (bind c (fun _ => k))
  (at level 61, right associativity).

Definition get_self : M RenderingTester := fun m => (self m, m).

Definition modify_self (f : RenderingTester -> RenderingTester) : M unit :=
  fun m => (tt, mkMachine (f (self m)) (ext m) (user m) (trace m)).

Definition emit (e : Event double) : M unit :=
  fun m => (tt, mkMachine (self m) (ext m) (user m) (trace m ++ [e])%list).

Definition on_ext {A : Type} (f : ExtState -> A * ExtState) : M A :=
  fun m => let r := f (ext m) in
           (fst r, mkMachine (self m) (snd r) (user m) (trace m)).

(** Calls that leave the program.  [Utils::SetupDPIAwareness] consists of
    Win32 calls only; what it does to the process is the platform's. *)
Definition SetupDPIAwareness : M unit :=
  emit CallSetupDPIAwareness ;;;
  on_ext (fun x => (tt, sys_SetupDPIAwareness plat x)).

Definition LoadLibraryA (path : string) : M HMODULE :=
  emit (CallLoadLibraryA path) ;;;
  on_ext (sys_LoadLibraryA plat path).

Definition GetProcAddress (h : HMODULE) (name : string) : M FARPROC :=
  emit (CallGetProcAddress h name) ;;;
  on_ext (fun x => (sys_GetProcAddress plat h name x, x)).

Definition invoke_InitWad (f : FARPROC) (path : string) : M Z :=
  emit (CallInitWad f path) ;;;
  on_ext (call_oevInitWad plat f path).

Definition invoke_ReadCpuid (f : FARPROC) : M gvCpuid :=
  emit (CallReadCpuid f) ;;;
  on_ext (call_oevReadCpuid plat f).

Definition invoke_RunRenderingTests (f : FARPROC) (xml : string)
  : M (option (gvRenderingTestResult float)) :=
  emit (CallRunRenderingTests f xml) ;;;
  on_ext (call_oevRunRenderingTests plat f xml).

(** [Utils::FindDisplayMode] against the modes the driver reports now. *)
Definition FindDisplayMode (width height : Z) : M Z :=
  fun m => (Utils.FindDisplayMode (sys_display_modes plat (ext m)) width height, m).

(** [Logger::Info] and [Logger::Error]. *)
Definition Logger_Info (format : string) (args : list (LogArg double)) : M unit :=
  emit (LogLine "[INFO] " format args).

Definition Logger_Error (format : string) (args : list (LogArg double)) : M unit :=
  emit (LogLine "[ERROR] " format args).

(** Assignments to the members of [Impl] and of the tester. *)
Definition with_pImpl (f : Impl -> Impl) (t : RenderingTester) : RenderingTester :=
  mkRenderingTester (f (m_pImpl t)) (m_dllPath t) (m_resourcePath t)
                    (m_lastError t) (m_initialized t).

Definition assign_hLibrary (h : HMODULE) : M unit :=
  modify_self (with_pImpl (fun i =>
    mkImpl h (funcInitWad i) (funcReadCpuid i) (funcRunRenderingTests i))).

Definition assign_funcInitWad (p : FARPROC) : M unit :=
  modify_self (with_pImpl (fun i =>
    mkImpl (hLibrary i) p (funcReadCpuid i) (funcRunRenderingTests i))).

Definition assign_funcReadCpuid (p : FARPROC) : M unit :=
  modify_self (with_pImpl (fun i =>
    mkImpl (hLibrary i) (funcInitWad i) p (funcRunRenderingTests i))).

Definition assign_funcRunRenderingTests (p : FARPROC) : M unit :=
  modify_self (with_pImpl (fun i =>
    mkImpl (hLibrary i) (funcInitWad i) (funcReadCpuid i) p)).

Definition assign_lastError (e : string) : M unit :=
  modify_self (fun t =>
    mkRenderingTester (m_pImpl t) (m_dllPath t) (m_resourcePath t) e
                      (m_initialized t)).

Definition assign_initialized (b : bool) : M unit :=
  modify_self (fun t =>
    mkRenderingTester (m_pImpl t) (m_dllPath t) (m_resourcePath t)
                      (m_lastError t) b).

(** [RenderingTester::Impl::LoadDLL]. *)
Definition LoadDLL (dllPath : string) : M bool :=
  let fullPath :=
    if String.eqb dllPath "" then "infogl.dll" else dllPath ++ "\infogl.dll" in
  h <- LoadLibraryA fullPath ;;
  assign_hLibrary h ;;;
  if is_null h then ret false
  else
    p <- GetProcAddress h "oevInitWad" ;;
    assign_funcInitWad p ;;;
    p <- GetProcAddress h "oevReadCpuid" ;;
    assign_funcReadCpuid p ;;;
    p <- GetProcAddress h "oevRunRenderingTests" ;;
    assign_funcRunRenderingTests p ;;;
    t <- get_self ;;
    ret (negb (is_null (funcInitWad (m_pImpl t)))
         && negb (is_null (funcReadCpuid (m_pImpl t)))
         && negb (is_null (funcRunRenderingTests (m_pImpl t)))).

(** [RenderingTester::InitLibrary]. *)
Definition InitLibrary : M bool :=
  t <- get_self ;;
  LoadDLL (m_dllPath t).

(** [RenderingTester::SetLastError]. *)
Definition SetLastError (error : string) : M unit :=
  assign_lastError error ;;;
  Logger_Error "%s" [ArgString error].

(** [RenderingTester::GetLastError]. *)
Definition GetLastError : M string :=
  t <- get_self ;; ret (m_lastError t).

(** [RenderingTester::IsInitialized]. *)
Definition IsInitialized : M bool :=
  t <- get_self ;; ret (m_initialized t).

(** [RenderingTester::Initialize]. *)
Definition Initialize : M bool :=
  t <- get_self ;;
  if m_initialized t then ret true
  else
    SetupDPIAwareness ;;;
    loaded <- InitLibrary ;;
    if negb loaded then
      SetLastError "Failed to load infogl.dll or required functions" ;;;
      ret false
    else
      t <- get_self ;;
      rc <- invoke_InitWad (funcInitWad (m_pImpl t)) (m_resourcePath t) ;;
      if rc <? 0 then
        SetLastError ("Failed to initialize resource package: " ++ m_resourcePath t) ;;;
        ret false
      else
        assign_initialized true ;;;
        Logger_Info "RenderingTester initialized successfully" [] ;;;
        ret true.

(** [RenderingTester::GetCPUInfo]. *)
Definition GetCPUInfo : M string :=
  t <- get_self ;;
  if negb (m_initialized t) || is_null (funcReadCpuid (m_pImpl t)) then
    ret "CPU information not available"
  else
    cpuInfo <- invoke_ReadCpuid (funcReadCpuid (m_pImpl t)) ;;
    ret (Specification cpuInfo).

(** [options |= bits] on an [int] left operand. *)
Definition or_assign (options bits : Z) : Z := to_int (Z.lor options bits).

(** The option bitmask block of [BuildXMLConfiguration]. *)
Definition BuildOptions (config : TestConfig) : Z :=
  let options := 0 in
  let options :=
    if fullscreen config
    then or_assign options (Z.lor WGLDIAG_OPTION_FS WGLDIAG_OPTIONS_FS_EX)
    else options in
  let options :=
    if enableDebugOutput config then or_assign options WGLDIAG_OPTION_DEBUG
    else options in
  let options :=
    if vsync config then or_assign options WGLDIAG_OPTION_VSYNC else options in
  let options :=
    if fog config then or_assign options WGLDIAG_OPTION_FOG else options in
  let options :=
    if transparency config then or_assign options WGLDIAG_OPTION_TRANSPARENCY
    else options in
  let options :=
    if userClipPlane config then or_assign options WGLDIAG_OPTION_CLIP_PLANE
    else options in
  options.

(** [RenderingTester::BuildXMLConfiguration]. *)
Definition BuildXMLConfiguration (config : TestConfig) : M string :=
  let options := BuildOptions config in
  let rendererValue := RendererType_to_int (renderer config) in
  let sceneValue := to_string (SceneType_to_int (scene config)) in
  let fbFormatStr := FramebufferFormatToString (fbFormat config) in
  let fbTypeStr := FramebufferTypeToString (fbType config) in
  let testVersion := GetTestVersionString (renderer config) in
  let xml := "" in
  let xml := xml ++ CreateXMLElement "option" (to_string options) in
  let xml := xml ++ CreateXMLElement "duration" (to_string (testDurationSeconds config)) in
  let xml := xml ++ CreateXMLElement "multisample" (to_string (multisampleCount config)) in
  let xml := xml ++ CreateXMLElement "anisotropy" (to_string (maxAnisotropy config)) in
  let xml := xml ++ CreateXMLElement "texturelod" (to_string (textureLOD config)) in
  displayMode <- FindDisplayMode (width config) (height config) ;;
  let xml := xml ++ CreateXMLElement "displaymode" (to_string displayMode) in
  let xml := xml ++ CreateXMLElement "renderer" (to_string rendererValue) in
  let xml := xml ++ CreateXMLElement "pixelformat" (to_string (pixelFormat config)) in
  let xml := xml ++ CreateXMLElement "test" testVersion in
  let xml := xml ++ CreateXMLElement "fbenable" fbTypeStr in
  let xml := xml ++ CreateXMLElement "fbformat" fbFormatStr in
  let xml := xml ++ CreateXMLElement "scene" sceneValue in
  let xml := xml ++ CreateXMLElement "width" (to_string (width config)) in
  let xml := xml ++ CreateXMLElement "height" (to_string (height config)) in
  ret (CreateXMLElement "root" xml).

(** [TestResult::TestResult()]. *)
Definition TestResult_new : TestResult double :=
  mkTestResult 0 false double_zero "".

(** [RenderingTester::RunSingleTest]. *)
Definition RunSingleTest (config : TestConfig) : M (TestResult double) :=
  let result := TestResult_new in
  t <- get_self ;;
  failed <- (if negb (m_initialized t)
             then (ok <- Initialize ;; ret (negb ok))
             else ret false) ;;
  if failed then
    e <- GetLastError ;;
    ret (mkTestResult (testIndex result) (passed result) (averageFPS result) e)
  else
    xmlConfig <- BuildXMLConfiguration config ;;
    Logger_Info "Running test with config: %s" [ArgString xmlConfig] ;;;
    t <- get_self ;;
    testResults <- invoke_RunRenderingTests (funcRunRenderingTests (m_pImpl t)) xmlConfig ;;
    match testResults with
    | Some r =>
        match oevSDK.result r with
        | Some status =>
            if String.eqb status "OK" then
              let result :=
                mkTestResult (index r) true (float_to_double (fps r))
                             (errorMessage result) in
              Logger_Info "Test %d passed with %.2f FPS"
                          [ArgInt (testIndex result); ArgDouble (averageFPS result)] ;;;
              ret result
            else
              let result :=
                mkTestResult (index r) false (averageFPS result) status in
              Logger_Error "Test %d failed: %s"
                           [ArgInt (testIndex result); ArgString (errorMessage result)] ;;;
              ret result
        | None =>
            Logger_Error "Test execution failed - no results returned" [] ;;;
            ret (mkTestResult (testIndex result) (passed result)
                              (averageFPS result) "No test results returned")
        end
    | None =>
        Logger_Error "Test execution failed - no results returned" [] ;;;
        ret (mkTestResult (testIndex result) (passed result)
                          (averageFPS result) "No test results returned")
    end.

(** [ProgressCallback]: an empty [std::function] is [None].  The
    callables modelled are those that return normally and act on the state
    they capture only.  A callable that throws, calls back into the
    tester or changes the vector being iterated is outside this model; the
    loop of [RunMultipleTests] has no handler and reads [configs.size()]
    at every turn, so with such a callable it need not complete. *)
Definition ProgressCallback : Type :=
  option (Z -> Z -> TestResult double -> User -> User).

Definition invoke_callback (f : Z -> Z -> TestResult double -> User -> User)
           (testIndex totalTests : Z) (currentResult : TestResult double) : M unit :=
  fun m => (tt, mkMachine (self m) (ext m)
                          (f testIndex totalTests currentResult (user m))
                          (trace m)).

(** One pass through the body of the [for] loop of [RunMultipleTests]
    after [configs[i]] has been read: run the test, append the result,
    report progress. *)
Definition RunMultipleTests_body (configs : list TestConfig)
           (progressCallback : ProgressCallback) (i : nat) (config : TestConfig)
           (results : list (TestResult double))
  : M (list (TestResult double)) :=
  result <- RunSingleTest config ;;
  let results := (results ++ [result])%list in
  match progressCallback with
  | Some f =>
      invoke_callback f (to_int (Z.of_nat (i + 1)))
                      (to_int (Z.of_nat (length configs))) result ;;;
      ret results
  | None => ret results
  end.

(** The loop [for (size_t i = 0; i < configs.size(); ++i)], entered
    with the current [i] and [results]. *)
Equations? RunMultipleTests_loop (configs : list TestConfig)
           (progressCallback : ProgressCallback) (i : nat)
           (results : list (TestResult double)) (m : machine)
  : list (TestResult double) * machine
  by wf (length configs - i)%nat lt :=
  RunMultipleTests_loop configs progressCallback i results m
    with inspect (nth_error configs i) => {
    | exist _ (Some config) _ =>
        RunMultipleTests_loop configs progressCallback (S i)
          (fst (RunMultipleTests_body configs progressCallback i config results m))
          (snd (RunMultipleTests_body configs progressCallback i config results m));
    | exist _ None _ => (results, m) }.
Proof.
  assert (i < length configs)%nat by (apply nth_error_Some; congruence).
  lia.
Qed.

(** [RenderingTester::RunMultipleTests]. *)
Definition RunMultipleTests (configs : list TestConfig)
           (progressCallback : ProgressCallback)
  : M (list (TestResult double)) :=
  RunMultipleTests_loop configs progressCallback 0 [].

(* ---------------------------------------------------------------- *)
(** *** The serializer as the specification words it *)

(** The option bitmask of the specification: the bit constants of the
    enabled flags, to be OR-ed together. *)
Definition enabled_option_bits (config : TestConfig) : list Z :=
  ((if fullscreen config then [2 ^ 11; WGLDIAG_OPTIONS_FS_EX] else []) ++
   (if enableDebugOutput config then [2 ^ 20] else []) ++
   (if vsync config then [2 ^ 12] else []) ++
   (if fog config then [2 ^ 5] else []) ++
   (if transparency config then [2 ^ 13] else []) ++
   (if userClipPlane config then [2 ^ 10] else []))%list.

Definition option_bitmask (config : TestConfig) : Z :=
  fold_right Z.lor 0 (enabled_option_bits config).

(** A flat sequence of elements, each on its own line. *)
Definition serialize_elements (elems : list (string * string)) : string :=
  fold_right (fun e acc => CreateXMLElement (fst e) (snd e) ++ acc) "" elems.

(** The fourteen elements of section 4.1, given the two computed values. *)
Definition xml_elements (options displayMode : Z) (config : TestConfig)
  : list (string * string) :=
  [ ("option", to_string options);
    ("duration", to_string (testDurationSeconds config));
    ("multisample", to_string (multisampleCount config));
    ("anisotropy", to_string (maxAnisotropy config));
    ("texturelod", to_string (textureLOD config));
    ("displaymode", to_string displayMode);
    ("renderer", to_string (RendererType_to_int (renderer config)));
    ("pixelformat", to_string (pixelFormat config));
    ("test", GetTestVersionString (renderer config));
    ("fbenable", FramebufferTypeToString (fbType config));
    ("fbformat", FramebufferFormatToString (fbFormat config));
    ("scene", to_string (SceneType_to_int (scene config)));
    ("width", to_string (width config));
    ("height", to_string (height config)) ].

(** The result translator as the specification words it: a null record
    or null status is a failure with a message, a status other than "OK"
    is a failure carrying the status and the index, "OK" is a pass
    carrying FPS and index. *)
Definition translate_record (record : option (gvRenderingTestResult float))
  : TestResult double :=
  match record with
  | Some r =>
      match oevSDK.result r with
      | Some status =>
          if String.eqb status "OK"
          then mkTestResult (index r) true (float_to_double (fps r)) ""
          else mkTestResult (index r) false double_zero status
      | None => mkTestResult 0 false double_zero "No test results returned"
      end
  | None => mkTestResult 0 false double_zero "No test results returned"
  end.

(** The values an [int] can hold. *)
Definition in_int (z : Z) : Prop := INT_MIN <= z <= INT_MAX.

(** What a progress callback does to the machine when it is invoked. *)
Definition notify (progressCallback : ProgressCallback) (completed total : Z)
           (r : TestResult double) (m : machine) : machine :=
  match progressCallback with
  | Some f => mkMachine (self m) (ext m) (f completed total r (user m)) (trace m)
  | None => m
  end.

(** The batch as the specification words it: the configurations are run
    one after the other, in order, each by [RunSingleTest] on the machine
    its predecessors left; after each, the callback receives the number of
    tests completed so far, the total, and the result just obtained;
    whether a result is a pass or a failure plays no role.
    [Sequential as_int cb total completed m configs results m'] runs
    [configs] from machine [m] with [completed] tests already done; the
    two counts reach the callback as [as_int] makes [int]s of them: as
    they are in the words of the specification ([as_int] the identity),
    through [static_cast<int>] in the code ([as_int] is [to_int]). *)
Inductive Sequential (as_int : Z -> Z) (progressCallback : ProgressCallback)
          (total : Z)
  : Z -> machine -> list TestConfig -> list (TestResult double) -> machine -> Prop :=
| Sequential_nil (completed : Z) (m : machine) :
    Sequential as_int progressCallback total completed m [] [] m
| Sequential_cons (completed : Z) (m : machine) (config : TestConfig)
                  (configs : list TestConfig) (r : TestResult double)
                  (results : list (TestResult double)) (m' : machine) :
    r = fst (RunSingleTest config m) ->
    Sequential as_int progressCallback total (completed + 1)
               (notify progressCallback (as_int (completed + 1)) (as_int total) r
                       (snd (RunSingleTest config m)))
               configs results m' ->
    Sequential as_int progressCallback total completed m
               (config :: configs) (r :: results) m'.

(** The same batch as a function on the list of configurations still to
    run, with the counts converted to [int] as the loop converts them. *)
Fixpoint run_in_order (progressCallback : ProgressCallback) (total : Z)
         (completed : nat) (configs : list TestConfig) (m : machine)
  : list (TestResult double) * machine :=
  match configs with
  | [] => ([], m)
  | config :: configs' =>
      let out := RunSingleTest config m in
      let m1 := notify progressCallback (to_int (Z.of_nat (completed + 1)))
                       total (fst out) (snd out) in
      let rest := run_in_order progressCallback total (S completed) configs' m1 in
      (fst out :: fst rest, snd rest)
  end.

(** An initialised tester holds a loaded library and its three entry
    points: what [RunSingleTest] and [GetCPUInfo] rely on when they call
    through the stored addresses. *)
Definition well_formed (t : RenderingTester) : Prop :=
  m_initialized t = true ->
  hLibrary (m_pImpl t) <> 0
  /\ funcInitWad (m_pImpl t) <> 0
  /\ funcReadCpuid (m_pImpl t) <> 0
  /\ funcRunRenderingTests (m_pImpl t) <> 0.

(** The framebuffer fields of a configuration hold enumerators. *)
Definition framebuffer_enumerators (config : TestConfig) : Prop :=
  In (fbFormat config) FramebufferFormat_enumerators
  /\ In (fbType config) FramebufferType_enumerators.

(** Counting the calls of one kind in a trace. *)
Definition is_LoadLibraryA (e : Event double) : bool :=
  match e with CallLoadLibraryA _ => true | _ => false end.

Definition is_RunRenderingTests (e : Event double) : bool :=
  match e with CallRunRenderingTests _ _ => true | _ => false end.

Definition count_calls (p : Event double -> bool) (tr : list (Event double)) : nat :=
  length (filter p tr).

(** [WGLDIAG_OPTIONS_FS_EX] shares no bit with the flags other than
    fullscreen. *)
Definition FS_EX_disjoint : Prop :=
  Z.testbit WGLDIAG_OPTIONS_FS_EX 5 = false
  /\ Z.testbit WGLDIAG_OPTIONS_FS_EX 10 = false
  /\ Z.testbit WGLDIAG_OPTIONS_FS_EX 12 = false
  /\ Z.testbit WGLDIAG_OPTIONS_FS_EX 13 = false
  /\ Z.testbit WGLDIAG_OPTIONS_FS_EX 20 = false.

(* ---------------------------------------------------------------- *)
(** *** Properties of the serializer *)

Lemma append_assoc (a b c : string) : (a ++ b) ++ c = a ++ (b ++ c).
Proof.
  induction a as [| ch a IH]; simpl; [reflexivity | now rewrite IH].
Qed.

Lemma append_nil_r (a : string) : a ++ "" = a.
Proof.
  induction a as [| ch a IH]; simpl; [reflexivity | now rewrite IH].
Qed.

Lemma prefix_app (sub pre rest : string) :
  prefix sub pre = true -> prefix sub (pre ++ rest) = true.
Proof.
  revert pre. induction sub as [| c sub IH]; intros pre H.
  - destruct (pre ++ rest); reflexivity.
  - destruct pre as [| d pre]; simpl in H; [discriminate |].
    simpl. destruct (ascii_dec c d); [auto | discriminate].
Qed.

Lemma prefix_nil_inv (sub : string) : prefix sub "" = true -> sub = "".
Proof. destruct sub; simpl; [reflexivity | discriminate]. Qed.

Lemma contains_app_l (sub a b : string) :
  contains sub a = true -> contains sub (a ++ b) = true.
Proof.
  induction a as [| ch a IH]; simpl; intros H.
  - apply prefix_nil_inv in H. subst sub. destruct b; reflexivity.
  - apply orb_true_iff in H. apply orb_true_iff. destruct H as [H | H].
    + left. apply (prefix_app sub (String ch a) b H).
    + right. auto.
Qed.

Lemma contains_app_r (sub a b : string) :
  contains sub b = true -> contains sub (a ++ b) = true.
Proof.
  induction a as [| ch a IH]; simpl; intros H; [assumption |].
  apply orb_true_iff. right. auto.
Qed.


Lemma to_int_id (z : Z) : in_int z -> to_int z = z.
Proof.
  unfold in_int, INT_MIN, INT_MAX, to_int. intros H.
  change (2 ^ 31) with 2147483648. change (2 ^ 32) with 4294967296.
  rewrite Z.mod_small; lia.
Qed.

Lemma in_int_shiftr (z : Z) :
  in_int z <-> Z.shiftr z 31 = 0 \/ Z.shiftr z 31 = -1.
Proof.
  unfold in_int, INT_MIN, INT_MAX.
  rewrite Z.shiftr_div_pow2 by lia. change (2 ^ 31) with 2147483648.
  pose proof (Z.div_mod z 2147483648 ltac:(lia)) as Hdm.
  pose proof (Z.mod_pos_bound z 2147483648 ltac:(lia)) as Hb.
  lia.
Qed.

Lemma lor_in_int (a b : Z) : in_int a -> in_int b -> in_int (Z.lor a b).
Proof.
  rewrite !in_int_shiftr, Z.shiftr_lor.
  intros [Ha | Ha] [Hb | Hb]; rewrite Ha, Hb; simpl; auto.
Qed.

Lemma or_assign_lor (a b : Z) :
  in_int a -> in_int b -> or_assign a b = Z.lor a b.
Proof.
  intros Ha Hb. unfold or_assign. apply to_int_id, lor_in_int; assumption.
Qed.

Lemma in_int_small (z : Z) : 0 <= z <= 2 ^ 20 -> in_int z.
Proof.
  unfold in_int, INT_MIN, INT_MAX. change (2 ^ 20) with 1048576. lia.
Qed.

Lemma to_int_range (z : Z) : in_int (to_int z).
Proof.
  unfold in_int, INT_MIN, INT_MAX, to_int.
  change (2 ^ 31) with 2147483648. change (2 ^ 32) with 4294967296.
  pose proof (Z.mod_pos_bound (z + 2147483648) 4294967296 ltac:(lia)). lia.
Qed.

Ltac int_range :=
  repeat match goal with
         | H : in_int ?z |- in_int ?z => exact H
         | |- in_int (or_assign _ _) => apply to_int_range
         | |- in_int (Z.lor _ _) => apply lor_in_int
         | |- in_int _ => apply in_int_small; vm_compute; split; discriminate
         end.

(** The bitmask block computes the OR of the enabled constants. *)
Lemma BuildOptions_bitmask (config : TestConfig) :
  in_int WGLDIAG_OPTIONS_FS_EX ->
  BuildOptions config = option_bitmask config.
Proof.
  intros HFS.
  unfold BuildOptions, option_bitmask, enabled_option_bits.
  destruct (fullscreen config), (enableDebugOutput config), (vsync config),
    (fog config), (transparency config), (userClipPlane config);
    cbn [app fold_right];
    repeat (rewrite or_assign_lor by int_range);
    rewrite ?Z.lor_0_r, ?Z.lor_0_l, ?Z.lor_assoc; reflexivity.
Qed.

Lemma BuildOptions_all_disabled (config : TestConfig) :
  fullscreen config = false -> enableDebugOutput config = false ->
  vsync config = false -> fog config = false ->
  transparency config = false -> userClipPlane config = false ->
  BuildOptions config = 0.
Proof.
  intros H1 H2 H3 H4 H5 H6. unfold BuildOptions.
  rewrite H1, H2, H3, H4, H5, H6. reflexivity.
Qed.

Lemma testbit_fold_lor (l : list Z) (i : Z) :
  Z.testbit (fold_right Z.lor 0 l) i = existsb (fun b => Z.testbit b i) l.
Proof.
  induction l as [| b l IH]; simpl.
  - apply Z.testbit_0_l.
  - rewrite Z.lor_spec, IH. reflexivity.
Qed.

(** The serializer reads the display modes and nothing else, and writes
    nothing: its output is the root element around the fourteen elements. *)
Lemma BuildXMLConfiguration_eq (config : TestConfig) (m : machine) :
  BuildXMLConfiguration config m =
  (CreateXMLElement "root"
     (serialize_elements
        (xml_elements (BuildOptions config)
           (Utils.FindDisplayMode (sys_display_modes plat (ext m))
                                  (width config) (height config))
           config)),
   m).
Proof.
  unfold BuildXMLConfiguration, bind, ret, FindDisplayMode. cbn [fst snd].
  f_equal. f_equal.
  unfold serialize_elements, xml_elements. cbn [fold_right fst snd].
  rewrite append_nil_r, !append_assoc. reflexivity.
Qed.

Lemma contains_root (sub body : string) :
  contains sub body = true ->
  contains sub (CreateXMLElement "root" body) = true.
Proof.
  intros H. unfold CreateXMLElement.
  apply contains_app_r, contains_app_r, contains_app_r, contains_app_l, H.
Qed.

Lemma contains_serialize (sub : string) (e : string * string)
      (elems : list (string * string)) :
  In e elems ->
  contains sub (CreateXMLElement (fst e) (snd e)) = true ->
  contains sub (serialize_elements elems) = true.
Proof.
  intros Hin Hsub. induction elems as [| e' elems IH]; [contradiction |].
  cbn [serialize_elements fold_right]. destruct Hin as [-> | Hin].
  - apply contains_app_l, Hsub.
  - apply contains_app_r, IH, Hin.
Qed.

Lemma append_inv_head (p a b : string) : p ++ a = p ++ b -> a = b.
Proof.
  induction p as [| c p IH]; cbn [append]; intros H; [exact H |].
  injection H as H. auto.
Qed.

(** Two texts free of [<], each followed by [<]: they end at the same
    place. *)
Lemma split_at_lt (v1 v2 t1 t2 : string) :
  no_lt v1 = true -> no_lt v2 = true ->
  v1 ++ String "<" t1 = v2 ++ String "<" t2 ->
  v1 = v2 /\ t1 = t2.
Proof.
  revert v2. induction v1 as [| c v1 IH]; intros [| d v2] H1 H2 H;
    cbn [append no_lt] in *.
  - injection H as ->. auto.
  - injection H as <- _. discriminate H2.
  - injection H as -> _. discriminate H1.
  - injection H as -> H. apply andb_true_iff in H1, H2.
    destruct (IH v2 (proj2 H1) (proj2 H2) H) as (-> & ->). auto.
Qed.

Lemma CreateXMLElement_inj (name v1 v2 r1 r2 : string) :
  no_lt v1 = true -> no_lt v2 = true ->
  CreateXMLElement name v1 ++ r1 = CreateXMLElement name v2 ++ r2 ->
  v1 = v2 /\ r1 = r2.
Proof.
  intros H1 H2 H. unfold CreateXMLElement in H.
  rewrite !append_assoc in H. cbn [append] in H. injection H as H.
  apply append_inv_head in H. cbn [append] in H. injection H as H.
  destruct (split_at_lt _ _ _ _ H1 H2 H) as (-> & Ht).
  split; [reflexivity |].
  injection Ht as Ht. apply append_inv_head in Ht.
  cbn [append] in Ht. injection Ht as Ht. exact Ht.
Qed.

Lemma serialize_elements_inj (l1 : list (string * string)) :
  forall (l2 : list (string * string)) (tail : string),
    map fst l1 = map fst l2 ->
    Forall (fun e => no_lt (snd e) = true) l1 ->
    Forall (fun e => no_lt (snd e) = true) l2 ->
    serialize_elements l1 ++ tail = serialize_elements l2 ++ tail ->
    map snd l1 = map snd l2.
Proof.
  induction l1 as [| [n1 v1] l1 IH]; intros [| [n2 v2] l2] tail Hnames Hv1 Hv2 H;
    try discriminate Hnames; [reflexivity |].
  cbn [map fst snd] in *. injection Hnames as <- Hnames.
  inversion Hv1 as [| ? ? Hv1a Hv1b]; subst.
  inversion Hv2 as [| ? ? Hv2a Hv2b]; subst.
  cbn [snd] in Hv1a, Hv2a.
  change (serialize_elements ((n1, v1) :: l1))
    with (CreateXMLElement n1 v1 ++ serialize_elements l1) in H.
  change (serialize_elements ((n1, v2) :: l2))
    with (CreateXMLElement n1 v2 ++ serialize_elements l2) in H.
  rewrite !append_assoc in H.
  destruct (CreateXMLElement_inj _ _ _ _ _ Hv1a Hv2a H) as (-> & Hrest).
  f_equal. exact (IH l2 tail Hnames Hv1b Hv2b Hrest).
Qed.

Lemma no_lt_to_string (z : Z) : no_lt (to_string z) = true.
Proof.
  assert (Hu : forall d, no_lt (NilEmpty.string_of_uint d) = true)
    by (induction d; cbn; auto).
  assert (Hz : forall d, no_lt (NilZero.string_of_uint d) = true)
    by (intros d; destruct d; try reflexivity; apply (Hu _)).
  unfold to_string. destruct (Z.to_int z); cbn [NilZero.string_of_int no_lt];
    [apply Hz |].
  rewrite Hz. reflexivity.
Qed.

(** [std::to_string] can be read back: different integers print
    differently. *)
Lemma to_string_inj (a b : Z) : to_string a = to_string b -> a = b.
Proof.
  unfold to_string. intros H.
  assert (Hnn : forall z, Z.to_int z <> Decimal.Pos Decimal.Nil
                          /\ Z.to_int z <> Decimal.Neg Decimal.Nil).
  { intros [| q | q]; cbn; split; try discriminate;
      intros [= Hq]; exact (DecimalPos.Unsigned.to_uint_nonnil _ Hq). }
  apply (f_equal NilZero.int_of_string) in H.
  rewrite !NilZero.isi in H by apply Hnn.
  injection H as H. now apply DecimalZ.to_int_inj.
Qed.

Lemma root_inj (body1 body2 : string) :
  CreateXMLElement "root" body1 = CreateXMLElement "root" body2 ->
  body1 ++ ("</root>" ++ LF) = body2 ++ ("</root>" ++ LF).
Proof.
  unfold CreateXMLElement. cbn [append]. intros H. injection H as H. exact H.
Qed.

(** Case analysis on a value of an enumeration: zero, the positive values
    by their low bits (so that every enumerator is a case of its own and
    the values above the last one are the cases with bits left over), the
    negative values. *)
Ltac split_bits p n :=
  lazymatch n with
  | O => idtac
  | S ?n' =>
      let q := fresh "q" in
      destruct p as [q | q |]; [split_bits q n' | split_bits q n' |]
  end.

Ltac enum_cases r n := destruct r as [| r | r]; [| split_bits r n |].

Ltac In_cases H :=
  cbn [In] in H; repeat (destruct H as [H | H]; [try discriminate H |]);
  try contradiction.

Lemma no_lt_GetTestVersionString (r : RendererType) :
  no_lt (GetTestVersionString r) = true.
Proof. enum_cases r 4%nat; reflexivity. Qed.

Lemma no_lt_FramebufferTypeToString (t : FramebufferType) :
  no_lt (FramebufferTypeToString t) = true.
Proof. enum_cases t 2%nat; reflexivity. Qed.

Lemma no_lt_FramebufferFormatToString (f : FramebufferFormat) :
  no_lt (FramebufferFormatToString f) = true.
Proof. enum_cases f 2%nat; reflexivity. Qed.

(** No value of the fourteen elements contains markup. *)
Lemma xml_elements_no_lt (options displayMode : Z) (config : TestConfig) :
  Forall (fun e : string * string => no_lt (snd e) = true)
         (xml_elements options displayMode config).
Proof.
  unfold xml_elements.
  repeat (apply Forall_cons; [cbn [snd] |]); try apply no_lt_to_string;
    try apply Forall_nil.
  - apply no_lt_GetTestVersionString.
  - apply no_lt_FramebufferTypeToString.
  - apply no_lt_FramebufferFormatToString.
Qed.

(** Equal documents carry equal values, element by element. *)
Lemma BuildXMLConfiguration_values (config1 config2 : TestConfig)
      (m1 m2 : machine) :
  fst (BuildXMLConfiguration config1 m1) = fst (BuildXMLConfiguration config2 m2) ->
  map snd (xml_elements (BuildOptions config1)
             (Utils.FindDisplayMode (sys_display_modes plat (ext m1))
                                    (width config1) (height config1))
             config1)
  = map snd (xml_elements (BuildOptions config2)
               (Utils.FindDisplayMode (sys_display_modes plat (ext m2))
                                      (width config2) (height config2))
               config2).
Proof.
  intros H. rewrite !BuildXMLConfiguration_eq in H. cbn [fst] in H.
  apply root_inj in H.
  apply serialize_elements_inj in H;
    [exact H | reflexivity | apply xml_elements_no_lt ..].
Qed.

(** C3. The value of the [option] element of the serialized XML is the
    bitwise OR of exactly the bit constants of the enabled flags:
    fullscreen gives bit 11 together with [WGLDIAG_OPTIONS_FS_EX], debug
    output bit 20, vsync bit 12, fog bit 5, transparency bit 13, the user
    clip plane bit 10; a disabled flag contributes nothing, and with all
    six flags off the value is 0.  ([WGLDIAG_OPTIONS_FS_EX], which the
    repository does not define, is any [int] constant.) *)
Theorem option_element_is_or_of_enabled_flags
        (config : TestConfig) (m : machine) :
  INT_MIN <= WGLDIAG_OPTIONS_FS_EX <= INT_MAX ->
  (exists rest,
      fst (BuildXMLConfiguration config m) =
      "<root><option>" ++ to_string (option_bitmask config) ++ "</option>" ++ rest)
  /\ (forall i,
         Z.testbit (option_bitmask config) i =
         existsb (fun b => Z.testbit b i) (enabled_option_bits config))
  /\ (fullscreen config = false -> enableDebugOutput config = false ->
      vsync config = false -> fog config = false ->
      transparency config = false -> userClipPlane config = false ->
      option_bitmask config = 0).
Proof.
  intros HFS. split; [| split].
  - rewrite BuildXMLConfiguration_eq. cbn [fst].
    rewrite (BuildOptions_bitmask config HFS).
    unfold xml_elements, serialize_elements, CreateXMLElement.
    cbn [fold_right fst snd]. rewrite !append_assoc.
    eexists. cbn [append]. reflexivity.
  - intros i. apply testbit_fold_lor.
  - intros H1 H2 H3 H4 H5 H6.
    rewrite <- (BuildOptions_bitmask config HFS).
    now apply BuildOptions_all_disabled.
Qed.

(** C4. [BuildXMLConfiguration] produces one [root] element holding
    exactly the fourteen elements option, duration, multisample,
    anisotropy, texturelod, displaymode, renderer, pixelformat, test,
    fbenable, fbformat, scene, width, height, in this order, each on a line
    of its own; each value is the decimal string of the corresponding
    integer, whatever it is (a negative size, a value cast into an
    enumeration that no enumerator names), except test, fbenable and
    fbformat, which carry the test-version and framebuffer strings.
    Nothing is validated or clamped: every integer field can be read back
    from the document. *)
Theorem BuildXMLConfiguration_layout (config : TestConfig) (m : machine) :
  fst (BuildXMLConfiguration config m) =
    "<root>"
    ++ "<option>" ++ to_string (BuildOptions config) ++ "</option>" ++ LF
    ++ "<duration>" ++ to_string (testDurationSeconds config)
    ++ "</duration>" ++ LF
    ++ "<multisample>" ++ to_string (multisampleCount config)
    ++ "</multisample>" ++ LF
    ++ "<anisotropy>" ++ to_string (maxAnisotropy config)
    ++ "</anisotropy>" ++ LF
    ++ "<texturelod>" ++ to_string (textureLOD config) ++ "</texturelod>" ++ LF
    ++ "<displaymode>"
    ++ to_string (Utils.FindDisplayMode (sys_display_modes plat (ext m))
                                        (width config) (height config))
    ++ "</displaymode>" ++ LF
    ++ "<renderer>" ++ to_string (RendererType_to_int (renderer config))
    ++ "</renderer>" ++ LF
    ++ "<pixelformat>" ++ to_string (pixelFormat config)
    ++ "</pixelformat>" ++ LF
    ++ "<test>" ++ GetTestVersionString (renderer config) ++ "</test>" ++ LF
    ++ "<fbenable>" ++ FramebufferTypeToString (fbType config)
    ++ "</fbenable>" ++ LF
    ++ "<fbformat>" ++ FramebufferFormatToString (fbFormat config)
    ++ "</fbformat>" ++ LF
    ++ "<scene>" ++ to_string (SceneType_to_int (scene config))
    ++ "</scene>" ++ LF
    ++ "<width>" ++ to_string (width config) ++ "</width>" ++ LF
    ++ "<height>" ++ to_string (height config) ++ "</height>" ++ LF
    ++ "</root>" ++ LF
  /\ (forall (config' : TestConfig) (m' : machine),
         fst (BuildXMLConfiguration config' m')
         = fst (BuildXMLConfiguration config m) ->
         testDurationSeconds config' = testDurationSeconds config
         /\ multisampleCount config' = multisampleCount config
         /\ maxAnisotropy config' = maxAnisotropy config
         /\ textureLOD config' = textureLOD config
         /\ RendererType_to_int (renderer config')
            = RendererType_to_int (renderer config)
         /\ pixelFormat config' = pixelFormat config
         /\ SceneType_to_int (scene config') = SceneType_to_int (scene config)
         /\ width config' = width config
         /\ height config' = height config).
Proof.
  split.
  - rewrite BuildXMLConfiguration_eq. cbn [fst].
    unfold xml_elements, serialize_elements, CreateXMLElement, LF.
    cbn [fold_right fst snd]. rewrite !append_assoc. cbn [append].
    reflexivity.
  - intros config' m' H. apply BuildXMLConfiguration_values in H.
    unfold xml_elements in H. cbn [map snd] in H.
    injection H as _ Hdur Hms Han Hlod _ Hren Hpf _ _ _ Hsc Hw Hh.
    apply to_string_inj in Hdur, Hms, Han, Hlod, Hren, Hpf, Hsc, Hw, Hh.
    repeat apply conj; assumption.
Qed.

(** C5. The configuration with renderer OpenGL 4.6, scene SingleCube,
    1920x1080, duration 5 and every other field at its default serializes
    to a root element that contains [<renderer>12</renderer>],
    [<scene>0</scene>], [<width>1920</width>], [<height>1080</height>],
    [<duration>5</duration>] and [<test>4.6</test>]. *)
Theorem default_config_serialization (m : machine) :
  let config :=
    {| renderer := OpenGL_4_6;
       fullscreen := false; width := 1920; height := 1080; vsync := false;
       fog := false; transparency := false; userClipPlane := false;
       multisampleCount := 0; maxAnisotropy := 0; textureLOD := 0;
       fbFormat := RGB_Linear; fbType := Default;
       scene := SingleCube; testDurationSeconds := 5;
       enableDebugOutput := false;
       pixelFormat := 1 |} in
  let xml := fst (BuildXMLConfiguration config m) in
  config = CreateDefaultConfig
  /\ (exists body, xml = CreateXMLElement "root" body)
  /\ contains "<renderer>12</renderer>" xml = true
  /\ contains "<scene>0</scene>" xml = true
  /\ contains "<width>1920</width>" xml = true
  /\ contains "<height>1080</height>" xml = true
  /\ contains "<duration>5</duration>" xml = true
  /\ contains "<test>4.6</test>" xml = true.
Proof.
  cbv zeta. rewrite BuildXMLConfiguration_eq. cbn [fst].
  split; [reflexivity |]. split; [eexists; reflexivity |].
  repeat apply conj; apply contains_root.
  - apply (contains_serialize _ ("renderer", "12"));
      [unfold xml_elements; repeat (first [left; reflexivity | right]) | reflexivity].
  - apply (contains_serialize _ ("scene", "0"));
      [unfold xml_elements; repeat (first [left; reflexivity | right]) | reflexivity].
  - apply (contains_serialize _ ("width", "1920"));
      [unfold xml_elements; repeat (first [left; reflexivity | right]) | reflexivity].
  - apply (contains_serialize _ ("height", "1080"));
      [unfold xml_elements; repeat (first [left; reflexivity | right]) | reflexivity].
  - apply (contains_serialize _ ("duration", "5"));
      [unfold xml_elements; repeat (first [left; reflexivity | right]) | reflexivity].
  - apply (contains_serialize _ ("test", "4.6"));
      [unfold xml_elements; repeat (first [left; reflexivity | right]) | reflexivity].
Qed.

(** C7. Serialization is deterministic: identical configurations,
    serialized over the same display-mode environment, give identical
    strings, whatever else differs between the two runs (tester state,
    rest of the process state, trace); and serializing changes nothing,
    so a second run right after the first gives the same bytes. *)
Theorem BuildXMLConfiguration_deterministic
        (config1 config2 : TestConfig) (m1 m2 : machine) :
  config1 = config2 ->
  sys_display_modes plat (ext m1) = sys_display_modes plat (ext m2) ->
  fst (BuildXMLConfiguration config1 m1) = fst (BuildXMLConfiguration config2 m2)
  /\ snd (BuildXMLConfiguration config1 m1) = m1
  /\ fst (BuildXMLConfiguration config1 (snd (BuildXMLConfiguration config1 m1)))
     = fst (BuildXMLConfiguration config1 m1).
Proof.
  intros -> Hmodes. rewrite !BuildXMLConfiguration_eq. cbn [fst snd].
  rewrite Hmodes. repeat split; reflexivity.
Qed.

(* ---------------------------------------------------------------- *)
(** *** Properties of initialisation and of a single test *)

(** Symbolic execution of the monadic code: call-by-value unfolding of
    the wrapper's own functions, leaving the platform's answers and the
    serializer as they are. *)
Ltac run_machine :=
  cbv beta iota zeta delta
    [RunSingleTest TestResult_new Initialize InitLibrary LoadDLL GetCPUInfo
     RunMultipleTests_body invoke_callback
     SetLastError GetLastError IsInitialized Logger_Info Logger_Error
     SetupDPIAwareness LoadLibraryA GetProcAddress invoke_InitWad
     invoke_ReadCpuid invoke_RunRenderingTests
     assign_hLibrary assign_funcInitWad assign_funcReadCpuid
     assign_funcRunRenderingTests assign_lastError assign_initialized
     with_pImpl bind ret get_self modify_self emit on_ext
     fst snd self ext user trace m_pImpl m_dllPath m_resourcePath
     m_lastError m_initialized hLibrary funcInitWad funcReadCpuid
     funcRunRenderingTests testIndex passed averageFPS errorMessage negb].

Ltac open_machine m :=
  let impl := fresh "impl" in
  let dll := fresh "dll" in
  let res := fresh "res" in
  let err := fresh "err" in
  let ini := fresh "ini" in
  let x := fresh "x" in
  let u := fresh "u" in
  let tr := fresh "tr" in
  destruct m as [[impl dll res err ini] x u tr].

(** What [LoadDLL] answers, in terms of what the platform answers. *)
Lemma LoadDLL_result (dllPath : string) (m : machine) :
  let fullPath :=
    if String.eqb dllPath "" then "infogl.dll" else dllPath ++ "\infogl.dll" in
  let h := fst (sys_LoadLibraryA plat fullPath (ext m)) in
  let x := snd (sys_LoadLibraryA plat fullPath (ext m)) in
  fst (LoadDLL dllPath m) =
  negb (is_null h)
  && (negb (is_null (sys_GetProcAddress plat h "oevInitWad" x))
      && negb (is_null (sys_GetProcAddress plat h "oevReadCpuid" x))
      && negb (is_null (sys_GetProcAddress plat h "oevRunRenderingTests" x))).
Proof.
  open_machine m. run_machine.
  destruct (sys_LoadLibraryA plat _ _) as [h x1].
  destruct (is_null h); reflexivity.
Qed.

(** An initialised tester: [Initialize] returns at its first line. *)
Lemma Initialize_initialized (m : machine) :
  m_initialized (self m) = true -> Initialize m = (true, m).
Proof.
  open_machine m. cbn [self m_initialized]. intros ->. reflexivity.
Qed.

(** The three ways [Initialize] ends when the tester is not initialised. *)
Lemma Initialize_uninitialized (m : machine) :
  m_initialized (self m) = false ->
  let m1 := snd (SetupDPIAwareness m) in
  let m2 := snd (InitLibrary m1) in
  if fst (InitLibrary m1) then
    let rc := fst (call_oevInitWad plat (funcInitWad (m_pImpl (self m2)))
                                   (m_resourcePath (self m2)) (ext m2)) in
    if rc <? 0 then
      fst (Initialize m) = false
      /\ m_initialized (self (snd (Initialize m))) = false
      /\ m_lastError (self (snd (Initialize m))) =
         "Failed to initialize resource package: " ++ m_resourcePath (self m)
    else
      fst (Initialize m) = true
      /\ m_initialized (self (snd (Initialize m))) = true
      /\ m_lastError (self (snd (Initialize m))) = m_lastError (self m)
  else
    fst (Initialize m) = false
    /\ m_initialized (self (snd (Initialize m))) = false
    /\ m_lastError (self (snd (Initialize m))) =
       "Failed to load infogl.dll or required functions".
Proof.
  open_machine m. cbn [self m_initialized]. intros ->. run_machine.
  destruct (sys_LoadLibraryA plat _ _) as [h x1].
  destruct (is_null h); [repeat split; reflexivity |].
  destruct (is_null (sys_GetProcAddress plat h "oevInitWad" x1));
    [repeat split; reflexivity |].
  destruct (is_null (sys_GetProcAddress plat h "oevReadCpuid" x1));
    [repeat split; reflexivity |].
  destruct (is_null (sys_GetProcAddress plat h "oevRunRenderingTests" x1));
    [repeat split; reflexivity |].
  cbn [andb].
  destruct (call_oevInitWad plat _ _ _) as [rc x2].
  destruct (rc <? 0); repeat split; reflexivity.
Qed.

(** [Initialize] answers [true] exactly when it leaves the tester
    initialised. *)
Lemma Initialize_flag (m : machine) :
  m_initialized (self (snd (Initialize m))) = fst (Initialize m).
Proof.
  destruct (m_initialized (self m)) eqn:Hini.
  - rewrite (Initialize_initialized m Hini). exact Hini.
  - pose proof (Initialize_uninitialized m Hini) as H. cbv zeta in H.
    destruct (fst (InitLibrary _)).
    + destruct (_ <? 0); destruct H as (-> & -> & _); reflexivity.
    + destruct H as (-> & -> & _); reflexivity.
Qed.

(** A test on an initialised tester: the record the entry point returns
    for the serialized configuration is translated, the tester object and
    the callback's state are left alone. *)
Lemma RunSingleTest_initialized (config : TestConfig) (m : machine) :
  m_initialized (self m) = true ->
  let xml := fst (BuildXMLConfiguration config m) in
  let out := call_oevRunRenderingTests plat
               (funcRunRenderingTests (m_pImpl (self m))) xml (ext m) in
  fst (RunSingleTest config m) = translate_record (fst out)
  /\ self (snd (RunSingleTest config m)) = self m
  /\ ext (snd (RunSingleTest config m)) = snd out
  /\ user (snd (RunSingleTest config m)) = user m.
Proof.
  open_machine m. cbn [self m_initialized]. intros ->.
  run_machine. rewrite !BuildXMLConfiguration_eq.
  unfold translate_record. run_machine.
  destruct (call_oevRunRenderingTests plat _ _ _) as [[r |] x1];
    [| repeat split; reflexivity].
  destruct (oevSDK.result r) as [status |]; [| repeat split; reflexivity].
  destruct (String.eqb status "OK"); repeat split; reflexivity.
Qed.

(** A test on a tester that is not initialised yet: [Initialize] runs
    first; when it fails the test ends there with the last error, when it
    succeeds the test goes on as on an initialised tester. *)
Lemma RunSingleTest_uninitialized (config : TestConfig) (m : machine) :
  m_initialized (self m) = false ->
  if fst (Initialize m)
  then RunSingleTest config m = RunSingleTest config (snd (Initialize m))
  else RunSingleTest config m =
       (mkTestResult 0 false double_zero (m_lastError (self (snd (Initialize m)))),
        snd (Initialize m)).
Proof.
  open_machine m. cbn [self m_initialized]. intros ->. run_machine.
  destruct (sys_LoadLibraryA plat _ _) as [h x1].
  destruct (is_null h); [reflexivity |].
  destruct (is_null (sys_GetProcAddress plat h "oevInitWad" x1)); [reflexivity |].
  destruct (is_null (sys_GetProcAddress plat h "oevReadCpuid" x1)); [reflexivity |].
  destruct (is_null (sys_GetProcAddress plat h "oevRunRenderingTests" x1));
    [reflexivity |].
  cbn [andb].
  destruct (call_oevInitWad plat _ _ _) as [rc x2].
  destruct (rc <? 0); reflexivity.
Qed.

(** [RunSingleTest] never touches the state a progress callback captures. *)
Lemma RunSingleTest_user (config : TestConfig) (m : machine) :
  user (snd (RunSingleTest config m)) = user m.
Proof.
  assert (Hinit : user (snd (Initialize m)) = user m).
  { destruct (m_initialized (self m)) eqn:Hini.
    - now rewrite (Initialize_initialized m Hini).
    - revert Hini. open_machine m. cbn [self m_initialized]. intros ->.
      run_machine.
      destruct (sys_LoadLibraryA plat _ _) as [h x1].
      destruct (is_null h); [reflexivity |].
      destruct (is_null (sys_GetProcAddress plat h "oevInitWad" x1)); [reflexivity |].
      destruct (is_null (sys_GetProcAddress plat h "oevReadCpuid" x1)); [reflexivity |].
      destruct (is_null (sys_GetProcAddress plat h "oevRunRenderingTests" x1));
        [reflexivity |].
      cbn [andb].
      destruct (call_oevInitWad plat _ _ _) as [rc x2].
      destruct (rc <? 0); reflexivity. }
  destruct (m_initialized (self m)) eqn:Hini.
  - apply (RunSingleTest_initialized config m Hini).
  - pose proof (RunSingleTest_uninitialized config m Hini) as H.
    pose proof (Initialize_flag m) as Hflag.
    destruct (fst (Initialize m)); rewrite H.
    + destruct (RunSingleTest_initialized config _ Hflag) as (_ & _ & _ & ->).
      exact Hinit.
    + exact Hinit.
Qed.

(** C1. [RunSingleTest] translates the record returned by the run-tests
    entry point: a null record, or a record with a null status, gives
    [passed = false] and an error message; a status other than "OK" gives
    [passed = false], the status as error message and the record's index;
    the status "OK" gives [passed = true] with FPS and index copied from
    the record.  The tester the entry point is called on is the given one
    when it is initialised, the one [Initialize] leaves otherwise; when
    that initialisation fails the entry point is not called and the
    result is a failure carrying the last error. *)
Theorem RunSingleTest_translates_record (config : TestConfig) (m : machine) :
  let ready := if m_initialized (self m) then m else snd (Initialize m) in
  let res := fst (RunSingleTest config m) in
  if m_initialized (self ready) then
    let xml := fst (BuildXMLConfiguration config ready) in
    let record :=
      fst (call_oevRunRenderingTests plat
             (funcRunRenderingTests (m_pImpl (self ready))) xml (ext ready)) in
    match record with
    | None =>
        passed res = false /\ errorMessage res = "No test results returned"
    | Some r =>
        match oevSDK.result r with
        | None =>
            passed res = false /\ errorMessage res = "No test results returned"
        | Some status =>
            if String.eqb status "OK"
            then passed res = true
                 /\ averageFPS res = float_to_double (fps r)
                 /\ testIndex res = index r
            else passed res = false
                 /\ errorMessage res = status
                 /\ testIndex res = index r
        end
    end
  else
    passed res = false /\ errorMessage res = m_lastError (self ready).
Proof.
  cbv zeta.
  assert (Hready : forall m0 : machine,
             m_initialized (self m0) = true ->
             RunSingleTest config m = RunSingleTest config m0 ->
             match
               fst (call_oevRunRenderingTests plat
                      (funcRunRenderingTests (m_pImpl (self m0)))
                      (fst (BuildXMLConfiguration config m0)) (ext m0))
             with
             | None =>
                 passed (fst (RunSingleTest config m)) = false
                 /\ errorMessage (fst (RunSingleTest config m))
                    = "No test results returned"
             | Some r =>
                 match oevSDK.result r with
                 | None =>
                     passed (fst (RunSingleTest config m)) = false
                     /\ errorMessage (fst (RunSingleTest config m))
                        = "No test results returned"
                 | Some status =>
                     if String.eqb status "OK"
                     then passed (fst (RunSingleTest config m)) = true
                          /\ averageFPS (fst (RunSingleTest config m))
                             = float_to_double (fps r)
                          /\ testIndex (fst (RunSingleTest config m)) = index r
                     else passed (fst (RunSingleTest config m)) = false
                          /\ errorMessage (fst (RunSingleTest config m)) = status
                          /\ testIndex (fst (RunSingleTest config m)) = index r
                 end
             end).
  { intros m0 Hini Heq. rewrite Heq.
    destruct (RunSingleTest_initialized config m0 Hini) as (-> & _).
    unfold translate_record.
    destruct (fst (call_oevRunRenderingTests plat _ _ _)) as [r |];
      [| split; reflexivity].
    destruct (oevSDK.result r) as [status |]; [| split; reflexivity].
    destruct (String.eqb status "OK"); repeat split; reflexivity. }
  destruct (m_initialized (self m)) eqn:Hini.
  - rewrite Hini. apply Hready; [exact Hini | reflexivity].
  - pose proof (RunSingleTest_uninitialized config m Hini) as H.
    rewrite (Initialize_flag m).
    destruct (fst (Initialize m)) eqn:Hok.
    + apply Hready; [rewrite Initialize_flag; exact Hok | exact H].
    + rewrite H. split; reflexivity.
Qed.

(** C6. Library binding answers [true] exactly when the library loads
    and the three entry points [oevInitWad], [oevReadCpuid] and
    [oevRunRenderingTests] are all resolved; when it answers [false]
    (load failure or any symbol missing), [Initialize] returns [false],
    sets the last-error message and leaves the tester uninitialised. *)
Theorem library_binding_all_or_nothing (m : machine) :
  m_initialized (self m) = false ->
  let m1 := snd (SetupDPIAwareness m) in
  let dllPath := m_dllPath (self m1) in
  let fullPath :=
    if String.eqb dllPath "" then "infogl.dll" else dllPath ++ "\infogl.dll" in
  let h := fst (sys_LoadLibraryA plat fullPath (ext m1)) in
  let x := snd (sys_LoadLibraryA plat fullPath (ext m1)) in
  (fst (InitLibrary m1) = true <->
     h <> 0
     /\ sys_GetProcAddress plat h "oevInitWad" x <> 0
     /\ sys_GetProcAddress plat h "oevReadCpuid" x <> 0
     /\ sys_GetProcAddress plat h "oevRunRenderingTests" x <> 0)
  /\ (fst (InitLibrary m1) = false ->
      fst (Initialize m) = false
      /\ m_lastError (self (snd (Initialize m))) =
         "Failed to load infogl.dll or required functions"
      /\ m_initialized (self (snd (Initialize m))) = false).
Proof.
  intros Hini. cbv zeta. split.
  - change (InitLibrary (snd (SetupDPIAwareness m)))
      with (LoadDLL (m_dllPath (self (snd (SetupDPIAwareness m))))
                    (snd (SetupDPIAwareness m))).
    rewrite LoadDLL_result. cbv zeta. unfold is_null.
    rewrite !andb_true_iff, !negb_true_iff, !Z.eqb_neq. tauto.
  - intros Hfail.
    pose proof (Initialize_uninitialized m Hini) as H. cbv zeta in H.
    rewrite Hfail in H. destruct H as (H1 & H2 & H3). auto.
Qed.

(** After a successful [Initialize] the tester reports itself initialised. *)
Lemma Initialize_success (m : machine) :
  fst (Initialize m) = true -> fst (IsInitialized (snd (Initialize m))) = true.
Proof.
  intros H. change (m_initialized (self (snd (Initialize m))) = true).
  now rewrite Initialize_flag.
Qed.

(** C9. [Initialize] is idempotent after success: on a tester that is
    initialised, a further call returns [true] and changes nothing: no
    library is loaded, no resource package initialised (process state and
    call trace are the same), and the last error is as before; the same
    holds for any number of further calls. *)
Theorem Initialize_idempotent (m : machine) :
  fst (IsInitialized m) = true ->
  Initialize m = (true, m)
  /\ m_lastError (self (snd (Initialize m))) = m_lastError (self m)
  /\ ext (snd (Initialize m)) = ext m
  /\ trace (snd (Initialize m)) = trace m
  /\ forall n : nat, Nat.iter n (fun s => snd (Initialize s)) m = m.
Proof.
  intros H. change (m_initialized (self m) = true) in H.
  pose proof (Initialize_initialized m H) as Heq.
  rewrite Heq. cbn [snd]. repeat split.
  induction n as [| n IH]; [reflexivity |].
  change (snd (Initialize (Nat.iter n (fun s => snd (Initialize s)) m)) = m).
  rewrite IH, Heq. reflexivity.
Qed.

(** C10. On an initialised tester [RunSingleTest] leaves the last-error
    string as it was: [GetLastError] returns the same value before and
    after the call, and a failure of the test is reported in the
    [errorMessage] of the returned result only. *)
Theorem RunSingleTest_keeps_last_error (config : TestConfig) (m : machine) :
  fst (IsInitialized m) = true ->
  fst (GetLastError (snd (RunSingleTest config m))) = fst (GetLastError m)
  /\ m_lastError (self (snd (RunSingleTest config m))) = m_lastError (self m).
Proof.
  intros H. change (m_initialized (self m) = true) in H.
  destruct (RunSingleTest_initialized config m H) as (_ & Hself & _).
  change (fst (GetLastError (snd (RunSingleTest config m))))
    with (m_lastError (self (snd (RunSingleTest config m)))).
  change (fst (GetLastError m)) with (m_lastError (self m)).
  rewrite Hself. split; reflexivity.
Qed.

(* ---------------------------------------------------------------- *)
(** *** Properties of a batch of tests *)

Lemma RunMultipleTests_body_eq (configs : list TestConfig)
      (progressCallback : ProgressCallback) (i : nat) (config : TestConfig)
      (results : list (TestResult double)) (m : machine) :
  RunMultipleTests_body configs progressCallback i config results m =
  ((results ++ [fst (RunSingleTest config m)])%list,
   notify progressCallback (to_int (Z.of_nat (i + 1)))
          (to_int (Z.of_nat (length configs)))
          (fst (RunSingleTest config m)) (snd (RunSingleTest config m))).
Proof.
  unfold RunMultipleTests_body, bind.
  destruct progressCallback as [f |]; cbn [fst snd notify].
  - reflexivity.
  - unfold ret. destruct (RunSingleTest config m); reflexivity.
Qed.

(** The loop from index [i] runs the configurations from [i] on, in order. *)
Lemma RunMultipleTests_loop_eq (configs : list TestConfig)
      (progressCallback : ProgressCallback) (k : nat) :
  forall (i : nat) (results : list (TestResult double)) (m : machine),
    (length configs - i = k)%nat ->
    RunMultipleTests_loop configs progressCallback i results m =
    let out := run_in_order progressCallback
                 (to_int (Z.of_nat (length configs))) i (skipn i configs) m in
    ((results ++ fst out)%list, snd out).
Proof.
  induction k as [| k IH]; intros i results m Hk;
    rewrite RunMultipleTests_loop_equation_1;
    destruct (inspect (nth_error configs i)) as [[config |] Hnth];
    cbn [RunMultipleTests_loop_unfold_clause_1].
  - assert (i < length configs)%nat by (apply nth_error_Some; congruence). lia.
  - rewrite skipn_all2 by lia. cbn [run_in_order fst snd].
    now rewrite app_nil_r.
  - rewrite RunMultipleTests_body_eq. cbn [fst snd].
    rewrite IH by lia. cbv zeta.
    assert (Hskip : skipn i configs = config :: skipn (S i) configs).
    { clear - Hnth. revert i Hnth.
      induction configs as [| c cs IHc]; intros [| i] H; try discriminate.
      - injection H as ->. reflexivity.
      - cbn [skipn]. apply IHc. exact H. }
    rewrite Hskip. cbn [run_in_order fst snd].
    rewrite <- app_assoc. reflexivity.
  - assert (length configs <= i)%nat by (apply nth_error_None; congruence). lia.
Qed.

Lemma RunMultipleTests_eq (configs : list TestConfig)
      (progressCallback : ProgressCallback) (m : machine) :
  RunMultipleTests configs progressCallback m =
  run_in_order progressCallback (to_int (Z.of_nat (length configs))) 0 configs m.
Proof.
  unfold RunMultipleTests.
  rewrite (RunMultipleTests_loop_eq configs progressCallback (length configs))
    by lia.
  cbv zeta. cbn [skipn app].
  destruct (run_in_order _ _ _ _ _); reflexivity.
Qed.

Lemma run_in_order_length (progressCallback : ProgressCallback) (total : Z)
      (configs : list TestConfig) :
  forall (completed : nat) (m : machine),
    length (fst (run_in_order progressCallback total completed configs m))
    = length configs.
Proof.
  induction configs as [| c cs IH]; intros completed m; cbn [run_in_order fst length].
  - reflexivity.
  - now rewrite IH.
Qed.

(** The loop is the sequential run, with the counts converted as the
    loop converts them. *)
Lemma run_in_order_Sequential (as_int : Z -> Z)
      (progressCallback : ProgressCallback)
      (configs : list TestConfig) (total : Z) :
  forall (completed : nat) (m : machine),
    (forall k : nat, (completed < k <= completed + length configs)%nat ->
                     as_int (Z.of_nat k) = to_int (Z.of_nat k)) ->
    Sequential as_int progressCallback total (Z.of_nat completed) m configs
      (fst (run_in_order progressCallback (as_int total) completed configs m))
      (snd (run_in_order progressCallback (as_int total) completed configs m)).
Proof.
  induction configs as [| c cs IH]; intros completed m Hk;
    cbn [run_in_order fst snd].
  - constructor.
  - cbn [length] in Hk. constructor; [reflexivity |].
    assert (E : as_int (Z.of_nat completed + 1)
                = to_int (Z.of_nat (completed + 1))).
    { replace (Z.of_nat completed + 1) with (Z.of_nat (completed + 1)) by lia.
      apply Hk. lia. }
    rewrite E.
    replace (Z.of_nat completed + 1) with (Z.of_nat (S completed)) by lia.
    apply IH. intros k Hk'. apply Hk. lia.
Qed.

(** The sequential run determines the results and the machine it ends in. *)
Lemma Sequential_functional (as_int : Z -> Z)
      (progressCallback : ProgressCallback) (total completed : Z) (m : machine)
      (configs : list TestConfig) (results1 : list (TestResult double))
      (m1 : machine) :
  Sequential as_int progressCallback total completed m configs results1 m1 ->
  forall (results2 : list (TestResult double)) (m2 : machine),
    Sequential as_int progressCallback total completed m configs results2 m2 ->
    results2 = results1 /\ m2 = m1.
Proof.
  induction 1 as [completed m
                 | completed m config configs r results m' Hr Hrest IH];
    intros results2 m2 H2; inversion H2; subst.
  - split; reflexivity.
  - match goal with
    | H : Sequential _ _ _ _ _ configs _ _ |- _ =>
        destruct (IH _ _ H) as (-> & ->)
    end.
    split; reflexivity.
Qed.

(** The calls a callback receives, read off the state it captures. *)
Lemma run_in_order_user (f : Z -> Z -> TestResult double -> User -> User)
      (total : Z) (configs : list TestConfig) :
  forall (completed : nat) (m : machine),
    user (snd (run_in_order (Some f) total completed configs m)) =
    fold_left (fun u kr => f (fst kr) total (snd kr) u)
      (combine (map (fun k => to_int (Z.of_nat k))
                    (seq (S completed) (length configs)))
               (fst (run_in_order (Some f) total completed configs m)))
      (user m).
Proof.
  induction configs as [| c cs IH]; intros completed m;
    cbn [run_in_order fst snd length seq map combine fold_left].
  - reflexivity.
  - rewrite IH. cbn [notify user]. rewrite RunSingleTest_user.
    replace (completed + 1)%nat with (S completed) by lia. reflexivity.
Qed.

(** The i-th result is the result of the i-th configuration on the
    machine the first i tests (and their progress reports) left. *)
Lemma run_in_order_nth (progressCallback : ProgressCallback) (total : Z)
      (configs : list TestConfig) :
  forall (completed : nat) (m : machine) (i : nat) (config : TestConfig),
    nth_error configs i = Some config ->
    nth_error (fst (run_in_order progressCallback total completed configs m)) i
    = Some (fst (RunSingleTest config
                   (snd (run_in_order progressCallback total completed
                           (firstn i configs) m)))).
Proof.
  induction configs as [| c cs IH]; intros completed m i config Hnth.
  - destruct i; discriminate.
  - destruct i as [| i]; cbn [nth_error firstn run_in_order fst snd] in *.
    + injection Hnth as ->. reflexivity.
    + apply IH. exact Hnth.
Qed.

(** C2 (the counts as the callback receives them).  For a vector of N
    configurations and a non-null progress callback that returns normally
    and acts on the state it captures only, [RunMultipleTests] returns
    exactly N results, the i-th being the result of [RunSingleTest] on the
    i-th configuration, run on the machine the first i tests left, and
    invokes the callback exactly N times, the k-th time with the k-th
    result and with the completed-count [k] and the total-count [N]
    converted to [int]; a failed test does not stop the batch.  For every
    N the run is the sequential run of the specification with the counts
    converted, and that run is the only one; when N <= INT_MAX the counts
    received are k and N themselves, and the run is the sequential run as
    the specification words it. *)
Theorem RunMultipleTests_sequential (configs : list TestConfig)
        (f : Z -> Z -> TestResult double -> User -> User) (m : machine) :
  let N := length configs in
  let out := RunMultipleTests configs (Some f) m in
  length (fst out) = N
  /\ Sequential to_int (Some f) (Z.of_nat N) 0 m configs (fst out) (snd out)
  /\ (forall (results : list (TestResult double)) (m' : machine),
         Sequential to_int (Some f) (Z.of_nat N) 0 m configs results m' ->
         results = fst out /\ m' = snd out)
  /\ (forall (i : nat) (config : TestConfig),
         nth_error configs i = Some config ->
         nth_error (fst out) i
         = Some (fst (RunSingleTest config
                        (snd (run_in_order (Some f) (to_int (Z.of_nat N)) 0
                                (firstn i configs) m)))))
  /\ user (snd out) =
     fold_left (fun u kr => f (to_int (fst kr)) (to_int (Z.of_nat N)) (snd kr) u)
               (combine (map Z.of_nat (seq 1 N)) (fst out))
               (user m)
  /\ (Z.of_nat N <= INT_MAX ->
      Sequential (fun z => z) (Some f) (Z.of_nat N) 0 m configs
                 (fst out) (snd out)
      /\ user (snd out) =
         fold_left (fun u kr => f (fst kr) (Z.of_nat N) (snd kr) u)
                   (combine (map Z.of_nat (seq 1 N)) (fst out))
                   (user m)).
Proof.
  cbv zeta. rewrite RunMultipleTests_eq.
  assert (Hseq : Sequential to_int (Some f) (Z.of_nat (length configs)) 0 m
                   configs
                   (fst (run_in_order (Some f)
                           (to_int (Z.of_nat (length configs))) 0 configs m))
                   (snd (run_in_order (Some f)
                           (to_int (Z.of_nat (length configs))) 0 configs m))).
  { apply (run_in_order_Sequential to_int (Some f) configs _ 0%nat m).
    reflexivity. }
  split; [apply run_in_order_length |].
  split; [exact Hseq |].
  split; [intros results m' H; exact (Sequential_functional _ _ _ _ _ _ _ _ Hseq _ _ H) |].
  split; [apply run_in_order_nth |].
  assert (Hmap : forall (g : Z -> Z) (l : list nat) (rs : list (TestResult double))
                        (total : Z) (u : User),
             fold_left (fun u kr => f (fst kr) total (snd kr) u)
                       (combine (map (fun k => g (Z.of_nat k)) l) rs) u
             = fold_left (fun u kr => f (g (fst kr)) total (snd kr) u)
                         (combine (map Z.of_nat l) rs) u).
  { intros g l. induction l as [| k l IH]; intros rs total u; [reflexivity |].
    destruct rs as [| r rs]; [reflexivity |].
    cbn [map combine fold_left fst snd]. apply IH. }
  split.
  - rewrite run_in_order_user. apply (Hmap to_int).
  - intros Hmax.
    assert (HN : to_int (Z.of_nat (length configs)) = Z.of_nat (length configs)).
    { apply to_int_id. unfold in_int, INT_MIN, INT_MAX in *. lia. }
    rewrite HN. split.
    + apply (run_in_order_Sequential (fun z => z) (Some f) configs
               (Z.of_nat (length configs)) 0%nat m).
      intros k Hk. symmetry. apply to_int_id.
      unfold in_int, INT_MIN, INT_MAX in *. lia.
    + rewrite run_in_order_user. f_equal. f_equal.
      apply map_ext_in. intros k Hk. apply in_seq in Hk.
      apply to_int_id. unfold in_int, INT_MIN, INT_MAX in *. lia.
Qed.

(** The calls a callback receives over a whole batch, with the counts as
    the loop converts them. *)
Lemma RunMultipleTests_user (configs : list TestConfig)
      (f : Z -> Z -> TestResult double -> User -> User) (m : machine) :
  user (snd (RunMultipleTests configs (Some f) m)) =
  fold_left
    (fun u kr => f (fst kr) (to_int (Z.of_nat (length configs))) (snd kr) u)
    (combine (map (fun k => to_int (Z.of_nat k)) (seq 1 (length configs)))
             (fst (RunMultipleTests configs (Some f) m)))
    (user m).
Proof.
  rewrite RunMultipleTests_eq. apply run_in_order_user.
Qed.

Lemma RunMultipleTests_length (configs : list TestConfig)
      (progressCallback : ProgressCallback) (m : machine) :
  length (fst (RunMultipleTests configs progressCallback m)) = length configs.
Proof.
  rewrite RunMultipleTests_eq. apply run_in_order_length.
Qed.

(* ---------------------------------------------------------------- *)
(** *** Further properties: the utilities *)

Lemma skipn_nth_error_cons {A : Type} (l : list A) :
  forall (i : nat) (x : A),
    nth_error l i = Some x -> skipn i l = x :: skipn (S i) l.
Proof.
  induction l as [| y l IH]; intros [| i] x H; try discriminate.
  - injection H as ->. reflexivity.
  - cbn [skipn]. apply IH. exact H.
Qed.

(** The index loop of [FindDisplayMode] is the search for the first match
    in the modes from [modeIndex] on. *)
Lemma FindDisplayMode_loop_eq (modes : list DEVMODE) (width height : Z) (k : nat) :
  forall i : nat,
    (length modes - i = k)%nat ->
    Utils.FindDisplayMode_loop modes width height (Z.of_nat i)
    = Utils.first_match_from (skipn i modes) width height (Z.of_nat i).
Proof.
  induction k as [| k IH]; intros i Hk;
    rewrite Utils.FindDisplayMode_loop_equation_1;
    destruct (inspect (EnumDisplaySettings modes (Z.of_nat i))) as [[dm |] Henum];
    cbn [Utils.FindDisplayMode_loop_unfold_clause_1];
    unfold EnumDisplaySettings in Henum;
    (destruct (Z.of_nat i <? 0) eqn:Hneg; [apply Z.ltb_lt in Hneg; lia |]);
    rewrite Nat2Z.id in Henum.
  - assert (i < length modes)%nat by (apply nth_error_Some; congruence). lia.
  - rewrite skipn_all2 by lia. reflexivity.
  - rewrite (skipn_nth_error_cons modes i dm Henum).
    cbn [Utils.first_match_from]. unfold Utils.mode_matches.
    destruct ((width =? to_int (dmPelsWidth dm))
              && (height =? to_int (dmPelsHeight dm))); [reflexivity |].
    replace (Z.of_nat i + 1) with (Z.of_nat (S i)) by lia.
    apply IH. lia.
  - assert (length modes <= i)%nat by (apply nth_error_None; congruence). lia.
Qed.

Lemma first_match_from_spec (width height : Z) (rest : list DEVMODE) :
  forall (pre : list DEVMODE),
    (forall dm, In dm pre -> Utils.mode_matches width height dm = false) ->
    let r := Utils.first_match_from rest width height (Z.of_nat (length pre)) in
    (r = -1
     /\ forall dm, In dm (pre ++ rest)%list ->
                   Utils.mode_matches width height dm = false)
    \/ (Z.of_nat (length pre) <= r < Z.of_nat (length (pre ++ rest)%list)
        /\ (exists dm, nth_error (pre ++ rest)%list (Z.to_nat r) = Some dm
                       /\ Utils.mode_matches width height dm = true)
        /\ forall (j : nat) (dm : DEVMODE),
             (Z.of_nat j < r) ->
             nth_error (pre ++ rest)%list j = Some dm ->
             Utils.mode_matches width height dm = false).
Proof.
  induction rest as [| dm rest IH]; intros pre Hpre; cbv zeta;
    cbn [Utils.first_match_from].
  - left. split; [reflexivity |]. rewrite app_nil_r. exact Hpre.
  - destruct (Utils.mode_matches width height dm) eqn:Hdm.
    + right. rewrite length_app. cbn [length]. split; [lia |]. split.
      * exists dm. rewrite Nat2Z.id, nth_error_app2 by lia.
        rewrite Nat.sub_diag. auto.
      * intros j dm' Hj Hnth. apply Hpre.
        rewrite nth_error_app1 in Hnth by lia.
        eapply nth_error_In, Hnth.
    + specialize (IH (pre ++ [dm])%list).
      rewrite length_app in IH. cbn [length] in IH.
      replace (Z.of_nat (length pre + 1)) with (Z.of_nat (length pre) + 1) in IH
        by lia.
      rewrite <- app_assoc in IH. cbn [app] in IH.
      destruct IH as [IH | (Hr & IH)].
      * intros dm' Hin. apply in_app_or in Hin.
        destruct Hin as [Hin | [<- | []]]; auto.
      * left. exact IH.
      * right. split; [lia | exact IH].
Qed.

(** X1. [Utils::FindDisplayMode] returns the index of the first
    enumerated mode whose size equals the request, and [-1] exactly when
    no mode has it (in particular on an empty enumeration). *)
Theorem FindDisplayMode_first_match (modes : list DEVMODE) (width height : Z) :
  let r := Utils.FindDisplayMode modes width height in
  (r = -1 /\ forall dm, In dm modes -> Utils.mode_matches width height dm = false)
  \/ (0 <= r < Z.of_nat (length modes)
      /\ (exists dm, nth_error modes (Z.to_nat r) = Some dm
                     /\ Utils.mode_matches width height dm = true)
      /\ forall (j : nat) (dm : DEVMODE),
           Z.of_nat j < r ->
           nth_error modes j = Some dm ->
           Utils.mode_matches width height dm = false).
Proof.
  cbv zeta. unfold Utils.FindDisplayMode.
  pose proof (FindDisplayMode_loop_eq modes width height (length modes) 0%nat
                ltac:(lia)) as Hloop.
  cbn [Z.of_nat skipn] in Hloop. rewrite Hloop.
  apply (first_match_from_spec width height modes []).
  intros dm [].
Qed.

(** Every value of [RendererType] is an enumerator or takes the
    [default:] branch of both switches over it. *)
Lemma RendererType_cases (r : RendererType) :
  In r RendererType_enumerators
  \/ (~ In r RendererType_enumerators
      /\ Utils.RendererTypeToString r = "Unknown"
      /\ GetTestVersionString r = "4.6").
Proof.
  unfold RendererType_enumerators.
  enum_cases r 4%nat;
    first [ left; solve [cbn [In]; repeat (first [left; reflexivity | right])]
          | right; split; [intros H; In_cases H | split; reflexivity] ].
Qed.

Lemma SceneType_cases (s : SceneType) :
  In s SceneType_enumerators
  \/ (~ In s SceneType_enumerators /\ Utils.SceneTypeToString s = "Unknown").
Proof.
  unfold SceneType_enumerators.
  enum_cases s 3%nat;
    first [ left; solve [cbn [In]; repeat (first [left; reflexivity | right])]
          | right; split; [intros H; In_cases H | reflexivity] ].
Qed.

(** X2. The display names are labels of the enumerators:
    [Utils::RendererTypeToString] and [Utils::SceneTypeToString] give
    different names to different enumerators, and the fallback "Unknown"
    to exactly the values that no enumerator names; two values with the
    same name are the same value or both unnamed. *)
Theorem display_names_distinct :
  (forall a b : RendererType,
      Utils.RendererTypeToString a = Utils.RendererTypeToString b ->
      a = b
      \/ (~ In a RendererType_enumerators /\ ~ In b RendererType_enumerators))
  /\ (forall a b : SceneType,
         Utils.SceneTypeToString a = Utils.SceneTypeToString b ->
         a = b
         \/ (~ In a SceneType_enumerators /\ ~ In b SceneType_enumerators))
  /\ (forall a : RendererType,
         Utils.RendererTypeToString a = "Unknown"
         <-> ~ In a RendererType_enumerators)
  /\ (forall a : SceneType,
         Utils.SceneTypeToString a = "Unknown"
         <-> ~ In a SceneType_enumerators).
Proof.
  repeat apply conj.
  - intros a b H.
    destruct (RendererType_cases a) as [Ha | (Ha & Hua & _)];
      destruct (RendererType_cases b) as [Hb | (Hb & Hub & _)].
    + left. unfold RendererType_enumerators in Ha, Hb.
      In_cases Ha; In_cases Hb; subst; first [reflexivity | discriminate H].
    + exfalso. rewrite Hub in H. unfold RendererType_enumerators in Ha.
      In_cases Ha; subst; discriminate H.
    + exfalso. rewrite Hua in H. unfold RendererType_enumerators in Hb.
      In_cases Hb; subst; discriminate H.
    + right. split; assumption.
  - intros a b H.
    destruct (SceneType_cases a) as [Ha | (Ha & Hua)];
      destruct (SceneType_cases b) as [Hb | (Hb & Hub)].
    + left. unfold SceneType_enumerators in Ha, Hb.
      In_cases Ha; In_cases Hb; subst; first [reflexivity | discriminate H].
    + exfalso. rewrite Hub in H. unfold SceneType_enumerators in Ha.
      In_cases Ha; subst; discriminate H.
    + exfalso. rewrite Hua in H. unfold SceneType_enumerators in Hb.
      In_cases Hb; subst; discriminate H.
    + right. split; assumption.
  - intros a. destruct (RendererType_cases a) as [Ha | (Ha & Hua & _)].
    + split; [| contradiction]. intros H.
      unfold RendererType_enumerators in Ha.
      exfalso. In_cases Ha; subst; discriminate H.
    + split; auto.
  - intros a. destruct (SceneType_cases a) as [Ha | (Ha & Hua)].
    + split; [| contradiction]. intros H.
      unfold SceneType_enumerators in Ha.
      exfalso. In_cases Ha; subst; discriminate H.
    + split; auto.
Qed.

(** X3. The test-version string sent for a renderer is the version in
    its display name for OpenGL 2.0 to 4.6; GDI is tested as 2.0 and
    every Vulkan renderer as 1.0, so only the renderer code tells the
    Vulkan versions (and GDI from OpenGL 2.0) apart in the XML; a value
    that no enumerator names is displayed as "Unknown" and tested as
    4.6. *)
Theorem test_version_of_renderer (r : RendererType) :
  match r with
  | GDI => GetTestVersionString r = "2.0"
  | Vulkan_1_0 | Vulkan_1_1 | Vulkan_1_2 => GetTestVersionString r = "1.0"
  | OpenGL_2_0
  | OpenGL_3_0 | OpenGL_3_1 | OpenGL_3_2 | OpenGL_3_3
  | OpenGL_4_0 | OpenGL_4_1 | OpenGL_4_2 | OpenGL_4_3
  | OpenGL_4_4 | OpenGL_4_5 | OpenGL_4_6 =>
      Utils.RendererTypeToString r = "OpenGL " ++ GetTestVersionString r
  | _ =>
      Utils.RendererTypeToString r = "Unknown" /\ GetTestVersionString r = "4.6"
  end
  /\ (forall r' : RendererType,
         to_string (RendererType_to_int r) = to_string (RendererType_to_int r') ->
         r = r').
Proof.
  split; [| intros r' H; exact (to_string_inj _ _ H)].
  enum_cases r 4%nat; first [reflexivity | split; reflexivity].
Qed.

(* ---------------------------------------------------------------- *)
(** *** Further properties: initialisation and single tests *)

(** The outcomes of [Initialize] on a tester that is not initialised:
    the load fails, one of the three symbols is missing, the resource
    package is rejected, or everything succeeds. *)
Ltac case_Initialize :=
  let h := fresh "h" in
  let x1 := fresh "x1" in
  let rc := fresh "rc" in
  let x2 := fresh "x2" in
  let Hh := fresh "Hh" in
  let Hp1 := fresh "Hp1" in
  let Hp2 := fresh "Hp2" in
  let Hp3 := fresh "Hp3" in
  let Hrc := fresh "Hrc" in
  destruct (sys_LoadLibraryA plat _ _) as [h x1];
  destruct (is_null h) eqn:Hh;
  [| destruct (is_null (sys_GetProcAddress plat h "oevInitWad" x1)) eqn:Hp1;
     [| destruct (is_null (sys_GetProcAddress plat h "oevReadCpuid" x1)) eqn:Hp2;
        [| destruct (is_null (sys_GetProcAddress plat h "oevRunRenderingTests" x1))
             eqn:Hp3;
           [| cbn [andb];
              destruct (call_oevInitWad plat _ _ _) as [rc x2];
              destruct (rc <? 0) eqn:Hrc ]]]].

Lemma is_null_false (p : Z) : is_null p = false -> p <> 0.
Proof. unfold is_null. apply Z.eqb_neq. Qed.

Lemma count_calls_snoc (p : Event double -> bool) (tr : list (Event double))
      (e : Event double) :
  count_calls p (tr ++ [e])%list
  = (count_calls p tr + (if p e then 1 else 0))%nat.
Proof.
  unfold count_calls. rewrite filter_app, length_app. cbn [filter].
  destruct (p e); reflexivity.
Qed.

Lemma Initialize_well_formed (m : machine) :
  well_formed (self m) -> well_formed (self (snd (Initialize m))).
Proof.
  destruct (m_initialized (self m)) eqn:Hini.
  - now rewrite (Initialize_initialized m Hini).
  - intros _. revert Hini. open_machine m. cbn [self m_initialized].
    intros ->. run_machine. case_Initialize; cbn [andb]; run_machine;
      unfold well_formed; cbn [m_initialized m_pImpl hLibrary funcInitWad
                               funcReadCpuid funcRunRenderingTests];
      try discriminate.
    intros _. auto using is_null_false.
Qed.

Lemma Initialize_counts (m : machine) :
  count_calls is_RunRenderingTests (trace (snd (Initialize m)))
  = count_calls is_RunRenderingTests (trace m)
  /\ count_calls is_LoadLibraryA (trace (snd (Initialize m)))
     = (count_calls is_LoadLibraryA (trace m)
        + (if m_initialized (self m) then 0 else 1))%nat.
Proof.
  destruct (m_initialized (self m)) eqn:Hini.
  - rewrite (Initialize_initialized m Hini). cbn [snd]. split; lia.
  - revert Hini. open_machine m. cbn [self m_initialized trace].
    intros ->. run_machine. case_Initialize; cbn [andb]; run_machine;
      rewrite !count_calls_snoc; cbn [is_RunRenderingTests is_LoadLibraryA];
      split; lia.
Qed.

Lemma RunSingleTest_initialized_trace (config : TestConfig) (m : machine) :
  m_initialized (self m) = true ->
  exists outcome : Event double,
    is_RunRenderingTests outcome = false
    /\ is_LoadLibraryA outcome = false
    /\ trace (snd (RunSingleTest config m)) =
       (trace m ++
        [ LogLine "[INFO] " "Running test with config: %s"
                  [ArgString (fst (BuildXMLConfiguration config m))];
          CallRunRenderingTests (funcRunRenderingTests (m_pImpl (self m)))
                                (fst (BuildXMLConfiguration config m));
          outcome ])%list.
Proof.
  open_machine m. cbn [self m_initialized]. intros ->.
  run_machine. rewrite !BuildXMLConfiguration_eq. run_machine.
  destruct (call_oevRunRenderingTests plat _ _ _) as [[r |] x1].
  - destruct (oevSDK.result r) as [status |].
    + destruct (String.eqb status "OK"); eexists;
        (split; [| split; [| rewrite <- !app_assoc; reflexivity]]); reflexivity.
    + eexists; (split; [| split; [| rewrite <- !app_assoc; reflexivity]]);
        reflexivity.
  - eexists; (split; [| split; [| rewrite <- !app_assoc; reflexivity]]);
      reflexivity.
Qed.

Lemma GetCPUInfo_self (m : machine) : self (snd (GetCPUInfo m)) = self m.
Proof.
  open_machine m. destruct impl as [hl f1 f2 f3]. run_machine.
  destruct ini, (is_null f2); reflexivity.
Qed.

(** X5. An initialised tester always holds a loaded library and three
    resolved entry points: the invariant holds for a new tester and is
    kept by [Initialize], [RunSingleTest], [GetCPUInfo] and
    [RunMultipleTests], so no call ever goes through a null address. *)
Theorem well_formed_invariant (m : machine) :
  well_formed (self m) ->
  well_formed (self (snd (Initialize m)))
  /\ (forall config, well_formed (self (snd (RunSingleTest config m))))
  /\ well_formed (self (snd (GetCPUInfo m)))
  /\ (forall configs progressCallback,
         well_formed (self (snd (RunMultipleTests configs progressCallback m))))
  /\ (forall dllPath resourcePath,
         well_formed (RenderingTester_new dllPath resourcePath)).
Proof.
  intros Hwf.
  assert (Hsingle : forall (m0 : machine) (config : TestConfig),
             well_formed (self m0) ->
             well_formed (self (snd (RunSingleTest config m0)))).
  { intros m0 config Hwf0.
    destruct (m_initialized (self m0)) eqn:Hini.
    - destruct (RunSingleTest_initialized config m0 Hini) as (_ & -> & _).
      exact Hwf0.
    - pose proof (RunSingleTest_uninitialized config m0 Hini) as H.
      pose proof (Initialize_flag m0) as Hflag.
      pose proof (Initialize_well_formed m0 Hwf0) as Hwf1.
      destruct (fst (Initialize m0)); rewrite H.
      + destruct (RunSingleTest_initialized config _ Hflag) as (_ & -> & _).
        exact Hwf1.
      + exact Hwf1. }
  split; [now apply Initialize_well_formed |].
  split; [intros config; now apply Hsingle |].
  split.
  { now rewrite GetCPUInfo_self. }
  split.
  { intros configs progressCallback. rewrite RunMultipleTests_eq.
    generalize 0%nat as completed. generalize (to_int (Z.of_nat (length configs))).
    revert m Hwf.
    induction configs as [| c cs IH]; intros m Hwf total completed;
      cbn [run_in_order snd]; [exact Hwf |].
    apply IH. destruct progressCallback as [f |]; cbn [notify self];
      now apply Hsingle. }
  intros dllPath resourcePath. unfold well_formed, RenderingTester_new.
  cbn [m_initialized]. discriminate.
Qed.

(** X6. One test is at most one call of the run-tests entry point and at
    most one load of the library: [RunSingleTest] calls
    [oevRunRenderingTests] exactly once when it leaves the tester
    initialised and not at all otherwise, and it calls [LoadLibraryA]
    exactly once when it finds the tester uninitialised and not at all
    otherwise. *)
Theorem RunSingleTest_call_counts (config : TestConfig) (m : machine) :
  let m' := snd (RunSingleTest config m) in
  count_calls is_RunRenderingTests (trace m')
  = (count_calls is_RunRenderingTests (trace m)
     + (if m_initialized (self m') then 1 else 0))%nat
  /\ count_calls is_LoadLibraryA (trace m')
     = (count_calls is_LoadLibraryA (trace m)
        + (if m_initialized (self m) then 0 else 1))%nat.
Proof.
  cbv zeta.
  assert (Hready : forall m0 : machine,
             m_initialized (self m0) = true ->
             m_initialized (self (snd (RunSingleTest config m0))) = true
             /\ count_calls is_RunRenderingTests
                  (trace (snd (RunSingleTest config m0)))
                = (count_calls is_RunRenderingTests (trace m0) + 1)%nat
             /\ count_calls is_LoadLibraryA
                  (trace (snd (RunSingleTest config m0)))
                = count_calls is_LoadLibraryA (trace m0)).
  { intros m0 Hini.
    destruct (RunSingleTest_initialized config m0 Hini) as (_ & Hself & _).
    destruct (RunSingleTest_initialized_trace config m0 Hini)
      as (outcome & Ho1 & Ho2 & ->).
    rewrite Hself. split; [exact Hini |].
    change (trace m0 ++ [?a; ?b; ?c])%list
      with (trace m0 ++ [a] ++ [b] ++ [c])%list.
    rewrite !app_assoc, !count_calls_snoc, Ho1, Ho2.
    cbn [is_RunRenderingTests is_LoadLibraryA]. split; lia. }
  destruct (m_initialized (self m)) eqn:Hini.
  - destruct (Hready m Hini) as (-> & -> & ->). split; lia.
  - pose proof (RunSingleTest_uninitialized config m Hini) as H.
    pose proof (Initialize_flag m) as Hflag.
    destruct (Initialize_counts m) as (Hrun & Hload). rewrite Hini in Hload.
    destruct (fst (Initialize m)); rewrite H.
    + destruct (Hready _ Hflag) as (-> & -> & ->). split; lia.
    + cbn [snd]. rewrite Hflag. split; lia.
Qed.

(* ---------------------------------------------------------------- *)
(** *** Further properties: batches *)

Lemma run_in_order_None (configs : list TestConfig) :
  forall (t1 t2 : Z) (k1 k2 : nat) (m : machine),
    run_in_order None t1 k1 configs m = run_in_order None t2 k2 configs m.
Proof.
  induction configs as [| c cs IH]; intros t1 t2 k1 k2 m;
    cbn [run_in_order notify]; [reflexivity |].
  now rewrite (IH t1 t2 (S k1) (S k2)).
Qed.

Lemma run_in_order_None_app (xs ys : list TestConfig) (t : Z) :
  forall (k : nat) (m : machine),
    run_in_order None t k (xs ++ ys)%list m
    = ((fst (run_in_order None t k xs m)
        ++ fst (run_in_order None t k ys (snd (run_in_order None t k xs m))))%list,
       snd (run_in_order None t k ys (snd (run_in_order None t k xs m)))).
Proof.
  induction xs as [| c cs IH]; intros k m;
    cbn [app run_in_order fst snd notify].
  - destruct (run_in_order None t k ys m); reflexivity.
  - rewrite IH.
    rewrite (run_in_order_None ys t t (S k) k). reflexivity.
Qed.

(** X8. Batches compose: without a callback, running the batch
    [xs ++ ys] is running [xs] and then [ys] on the machine [xs] left,
    and the results are the two result vectors one after the other; an
    empty batch returns no result and touches nothing (it does not even
    initialise the tester), with or without a callback. *)
Theorem RunMultipleTests_app (xs ys : list TestConfig) (m : machine) :
  let out1 := RunMultipleTests xs None m in
  let out2 := RunMultipleTests ys None (snd out1) in
  RunMultipleTests (xs ++ ys)%list None m = ((fst out1 ++ fst out2)%list, snd out2)
  /\ forall progressCallback, RunMultipleTests [] progressCallback m = ([], m).
Proof.
  cbv zeta. split; [| intros cb; now rewrite RunMultipleTests_eq].
  rewrite !RunMultipleTests_eq.
  rewrite (run_in_order_None (xs ++ ys)%list _ 0 0%nat 0%nat).
  rewrite (run_in_order_None xs _ 0 0%nat 0%nat).
  rewrite (run_in_order_None ys _ 0 0%nat 0%nat).
  apply run_in_order_None_app.
Qed.

(** X9. A batch on an initialised tester calls the run-tests entry point
    exactly once per configuration, never loads the library again, and
    leaves the tester object as it was. *)
Theorem RunMultipleTests_initialized (configs : list TestConfig)
        (progressCallback : ProgressCallback) (m : machine) :
  m_initialized (self m) = true ->
  let m' := snd (RunMultipleTests configs progressCallback m) in
  self m' = self m
  /\ count_calls is_RunRenderingTests (trace m')
     = (count_calls is_RunRenderingTests (trace m) + length configs)%nat
  /\ count_calls is_LoadLibraryA (trace m')
     = count_calls is_LoadLibraryA (trace m).
Proof.
  intros Hini. cbv zeta. rewrite RunMultipleTests_eq.
  generalize (to_int (Z.of_nat (length configs))). generalize 0%nat.
  revert m Hini. induction configs as [| c cs IH]; intros m Hini k t;
    cbn [run_in_order snd length].
  - repeat split; lia.
  - destruct (RunSingleTest_initialized c m Hini) as (_ & Hself & _).
    destruct (RunSingleTest_initialized_trace c m Hini)
      as (outcome & Ho1 & Ho2 & Htrace).
    set (m1 := notify progressCallback (to_int (Z.of_nat (k + 1))) t
                      (fst (RunSingleTest c m)) (snd (RunSingleTest c m))).
    assert (Hself1 : self m1 = self m)
      by (subst m1; destruct progressCallback; cbn [notify self]; exact Hself).
    assert (Htrace1 : trace m1 = trace (snd (RunSingleTest c m)))
      by (subst m1; destruct progressCallback; reflexivity).
    assert (Hini1 : m_initialized (self m1) = true) by (now rewrite Hself1).
    destruct (IH m1 Hini1 (S k) t) as (-> & -> & ->).
    rewrite Htrace1, Htrace.
    change (trace m ++ [?a; ?b; ?c])%list
      with (trace m ++ [a] ++ [b] ++ [c])%list.
    rewrite !app_assoc, !count_calls_snoc, Ho1, Ho2.
    cbn [is_RunRenderingTests is_LoadLibraryA].
    repeat split; [exact Hself1 | lia | lia].
Qed.

(** X10. A failed load is not remembered: on an installation where
    [LoadLibraryA] fails every time, a batch of N configurations on an
    uninitialised tester tries to load the library N times, never calls
    the run-tests entry point, leaves the tester uninitialised, and
    returns N failures that all carry the load error. *)
Theorem RunMultipleTests_library_missing (configs : list TestConfig)
        (progressCallback : ProgressCallback) (m : machine) :
  (forall path x, fst (sys_LoadLibraryA plat path x) = 0) ->
  m_initialized (self m) = false ->
  let out := RunMultipleTests configs progressCallback m in
  fst out
  = repeat (mkTestResult 0 false double_zero
                         "Failed to load infogl.dll or required functions")
           (length configs)
  /\ m_initialized (self (snd out)) = false
  /\ count_calls is_LoadLibraryA (trace (snd out))
     = (count_calls is_LoadLibraryA (trace m) + length configs)%nat
  /\ count_calls is_RunRenderingTests (trace (snd out))
     = count_calls is_RunRenderingTests (trace m).
Proof.
  intros Hmissing Hini. cbv zeta. rewrite RunMultipleTests_eq.
  generalize (to_int (Z.of_nat (length configs))). generalize 0%nat.
  revert m Hini. induction configs as [| c cs IH]; intros m Hini k t;
    cbn [run_in_order fst snd length repeat].
  - repeat split; try lia. exact Hini.
  - pose proof (RunSingleTest_uninitialized c m Hini) as Hrun.
    pose proof (Initialize_uninitialized m Hini) as Hfail. cbv zeta in Hfail.
    assert (Hlib : fst (InitLibrary (snd (SetupDPIAwareness m))) = false).
    { change (InitLibrary (snd (SetupDPIAwareness m)))
        with (LoadDLL (m_dllPath (self (snd (SetupDPIAwareness m))))
                      (snd (SetupDPIAwareness m))).
      rewrite LoadDLL_result. cbv zeta. rewrite Hmissing. reflexivity. }
    rewrite Hlib in Hfail. destruct Hfail as (Hfst & Hflag & Herr).
    rewrite Hfst in Hrun. rewrite Hrun. cbn [fst snd]. rewrite Herr.
    destruct (Initialize_counts m) as (Hc1 & Hc2). rewrite Hini in Hc2.
    set (m1 := notify progressCallback (to_int (Z.of_nat (k + 1))) t _
                      (snd (Initialize m))).
    assert (Hself1 : self m1 = self (snd (Initialize m)))
      by (subst m1; destruct progressCallback; reflexivity).
    assert (Htrace1 : trace m1 = trace (snd (Initialize m)))
      by (subst m1; destruct progressCallback; reflexivity).
    assert (Hini1 : m_initialized (self m1) = false) by (now rewrite Hself1).
    destruct (IH m1 Hini1 (S k) t) as (-> & -> & -> & ->).
    rewrite Htrace1, Hc1, Hc2. repeat split; lia.
Qed.

(* ---------------------------------------------------------------- *)
(** *** Further properties: what initialisation leaves behind *)

(** X11. A rejected resource package: when the library binds but
    [oevInitWad] answers a negative code, [Initialize] returns [false],
    the last error names the resource path, the tester stays
    uninitialised, and the library stays loaded with its three entry
    points stored. *)
Theorem Initialize_resource_rejected (m : machine) :
  m_initialized (self m) = false ->
  let m1 := snd (SetupDPIAwareness m) in
  let m2 := snd (InitLibrary m1) in
  fst (InitLibrary m1) = true ->
  fst (call_oevInitWad plat (funcInitWad (m_pImpl (self m2)))
                       (m_resourcePath (self m)) (ext m2)) < 0 ->
  fst (Initialize m) = false
  /\ m_lastError (self (snd (Initialize m)))
     = "Failed to initialize resource package: " ++ m_resourcePath (self m)
  /\ m_initialized (self (snd (Initialize m))) = false
  /\ hLibrary (m_pImpl (self (snd (Initialize m)))) <> 0
  /\ funcInitWad (m_pImpl (self (snd (Initialize m)))) <> 0
  /\ funcReadCpuid (m_pImpl (self (snd (Initialize m)))) <> 0
  /\ funcRunRenderingTests (m_pImpl (self (snd (Initialize m)))) <> 0.
Proof.
  open_machine m. cbn [self m_initialized m_resourcePath]. intros ->.
  run_machine. case_Initialize; cbn [andb]; run_machine;
    intros Hbound Hneg; try discriminate Hbound.
  - repeat split; auto using is_null_false.
  - match goal with H : (_ <? 0) = false |- _ => apply Z.ltb_ge in H; lia end.
Qed.

(** X12. The last error is never cleared: a successful [Initialize]
    leaves it as it was, and so does every [RunSingleTest] that leaves
    the tester initialised (in particular every test that passes), so
    [GetLastError] may report an error from an earlier attempt. *)
Theorem last_error_is_never_cleared (config : TestConfig) (m : machine) :
  (fst (Initialize m) = true ->
   m_lastError (self (snd (Initialize m))) = m_lastError (self m))
  /\ (m_initialized (self (snd (RunSingleTest config m))) = true ->
      m_lastError (self (snd (RunSingleTest config m))) = m_lastError (self m))
  /\ (passed (fst (RunSingleTest config m)) = true ->
      m_initialized (self (snd (RunSingleTest config m))) = true).
Proof.
  assert (Hinit : fst (Initialize m) = true ->
                  m_lastError (self (snd (Initialize m))) = m_lastError (self m)).
  { destruct (m_initialized (self m)) eqn:Hini.
    - now rewrite (Initialize_initialized m Hini).
    - pose proof (Initialize_uninitialized m Hini) as H. cbv zeta in H.
      destruct (fst (InitLibrary _)).
      + destruct (_ <? 0); destruct H as (-> & _ & H); [discriminate | auto].
      + destruct H as (-> & _); discriminate. }
  split; [exact Hinit |].
  destruct (m_initialized (self m)) eqn:Hini.
  - destruct (RunSingleTest_initialized config m Hini) as (_ & -> & _).
    split; auto.
  - pose proof (RunSingleTest_uninitialized config m Hini) as H.
    pose proof (Initialize_flag m) as Hflag.
    destruct (fst (Initialize m)) eqn:Hok; rewrite H.
    + destruct (RunSingleTest_initialized config _ Hflag) as (_ & -> & _).
      split; [intros _; now apply Hinit | intros _; exact Hflag].
    + cbn [fst snd passed]. rewrite Hflag. split; discriminate.
Qed.

(** X13. Earlier failures leave no mark on a retry: on two uninitialised
    testers with the same library path and resource path, in the same
    process state, [Initialize] gives the same answer and leaves the same
    process state, whatever their last errors and stored addresses were;
    when it succeeds it stores the same addresses. *)
Theorem Initialize_ignores_history (m1 m2 : machine) :
  m_initialized (self m1) = false ->
  m_initialized (self m2) = false ->
  m_dllPath (self m1) = m_dllPath (self m2) ->
  m_resourcePath (self m1) = m_resourcePath (self m2) ->
  ext m1 = ext m2 ->
  fst (Initialize m1) = fst (Initialize m2)
  /\ ext (snd (Initialize m1)) = ext (snd (Initialize m2))
  /\ (fst (Initialize m1) = true ->
      m_pImpl (self (snd (Initialize m1))) = m_pImpl (self (snd (Initialize m2)))).
Proof.
  destruct m1 as [[impl1 dll1 res1 err1 ini1] x1 u1 tr1].
  destruct m2 as [[impl2 dll2 res2 err2 ini2] x2 u2 tr2].
  cbn [self ext m_initialized m_dllPath m_resourcePath].
  intros -> -> -> -> ->. run_machine.
  case_Initialize; cbn [andb]; run_machine;
    repeat split; try reflexivity; discriminate.
Qed.

(** X14. [GetCPUInfo] on a tester that keeps the invariant: initialised,
    it calls [oevReadCpuid] once and returns the specification string the
    library gives; uninitialised, it returns the fallback text and calls
    nothing; in both cases the tester object is left as it was. *)
Theorem GetCPUInfo_result (m : machine) :
  well_formed (self m) ->
  (if m_initialized (self m)
   then fst (GetCPUInfo m)
        = Specification (fst (call_oevReadCpuid plat
                                (funcReadCpuid (m_pImpl (self m))) (ext m)))
        /\ trace (snd (GetCPUInfo m))
           = (trace m ++ [CallReadCpuid (funcReadCpuid (m_pImpl (self m)))])%list
   else GetCPUInfo m = ("CPU information not available", m))
  /\ self (snd (GetCPUInfo m)) = self m.
Proof.
  intros Hwf. split; [| apply GetCPUInfo_self].
  revert Hwf. open_machine m. destruct impl as [hl f1 f2 f3].
  unfold well_formed. cbn [self m_initialized m_pImpl hLibrary funcInitWad
                           funcReadCpuid funcRunRenderingTests ext trace].
  destruct ini; [| reflexivity].
  intros Hwf. destruct (Hwf eq_refl) as (_ & _ & Hf2 & _).
  run_machine. unfold is_null. apply Z.eqb_neq in Hf2. rewrite Hf2.
  cbn [orb]. run_machine.
  destruct (call_oevReadCpuid plat f2 x); split; reflexivity.
Qed.

(** X15. The resolution is not validated: when no enumerated display
    mode has the requested size, the serialized configuration carries
    [<displaymode>-1</displaymode>], and a test on an initialised tester
    still passes it to the run-tests entry point. *)
Theorem unsupported_resolution_is_sent (config : TestConfig) (m : machine) :
  (forall dm, In dm (sys_display_modes plat (ext m)) ->
              Utils.mode_matches (width config) (height config) dm = false) ->
  contains "<displaymode>-1</displaymode>"
           (fst (BuildXMLConfiguration config m)) = true
  /\ (m_initialized (self m) = true ->
      In (CallRunRenderingTests (funcRunRenderingTests (m_pImpl (self m)))
                                (fst (BuildXMLConfiguration config m)))
         (trace (snd (RunSingleTest config m)))).
Proof.
  intros Hnone. split.
  - rewrite BuildXMLConfiguration_eq. cbn [fst].
    assert (Hminus : Utils.FindDisplayMode (sys_display_modes plat (ext m))
                                           (width config) (height config) = -1).
    { unfold Utils.FindDisplayMode.
      pose proof (FindDisplayMode_loop_eq (sys_display_modes plat (ext m))
                    (width config) (height config)
                    (length (sys_display_modes plat (ext m))) 0%nat ltac:(lia))
        as Hloop.
      cbn [Z.of_nat skipn] in Hloop. rewrite Hloop.
      pose proof (first_match_from_spec (width config) (height config)
                    (sys_display_modes plat (ext m)) [] ltac:(intros dm []))
        as Hspec.
      cbv zeta in Hspec. cbn [length Z.of_nat app] in Hspec.
      destruct Hspec as [(Hr & _) | (_ & (dm & Hnth & Hm) & _)]; [exact Hr |].
      apply nth_error_In in Hnth. rewrite (Hnone dm Hnth) in Hm. discriminate. }
    rewrite Hminus. apply contains_root.
    apply (contains_serialize _ ("displaymode", "-1"));
      [unfold xml_elements; repeat (first [left; reflexivity | right])
      | reflexivity].
  - intros Hini.
    destruct (RunSingleTest_initialized_trace config m Hini)
      as (outcome & _ & _ & ->).
    apply in_or_app. right. right. left. reflexivity.
Qed.

(* ---------------------------------------------------------------- *)
(** *** Further properties: the serialization loses nothing *)

(** Each flag can be read back from its bit of the option value. *)
Lemma flags_of_option_bitmask (config : TestConfig) :
  FS_EX_disjoint ->
  Z.testbit (option_bitmask config) 11 = fullscreen config
  /\ Z.testbit (option_bitmask config) 20 = enableDebugOutput config
  /\ Z.testbit (option_bitmask config) 12 = vsync config
  /\ Z.testbit (option_bitmask config) 5 = fog config
  /\ Z.testbit (option_bitmask config) 13 = transparency config
  /\ Z.testbit (option_bitmask config) 10 = userClipPlane config.
Proof.
  intros (H5 & H10 & H12 & H13 & H20).
  unfold option_bitmask. rewrite !testbit_fold_lor.
  unfold enabled_option_bits.
  destruct (fullscreen config), (enableDebugOutput config), (vsync config),
    (fog config), (transparency config), (userClipPlane config);
    cbn [app existsb]; rewrite ?H5, ?H10, ?H12, ?H13, ?H20;
    repeat apply conj; reflexivity.
Qed.

(** A framebuffer value that no enumerator names is written as the first
    enumerator is. *)
Lemma Framebuffer_default_branches (v : Z) :
  (~ In v FramebufferFormat_enumerators ->
   FramebufferFormatToString v = FramebufferFormatToString RGB_Linear)
  /\ (~ In v FramebufferType_enumerators ->
      FramebufferTypeToString v = FramebufferTypeToString Default).
Proof.
  unfold FramebufferFormat_enumerators, FramebufferType_enumerators.
  split; intros H; enum_cases v 2%nat; try reflexivity;
    exfalso; apply H; cbn [In]; repeat (first [left; reflexivity | right]).
Qed.

(** X16. The serialization loses nothing of a configuration whose
    framebuffer format and type are enumerators: when
    [WGLDIAG_OPTIONS_FS_EX] is an [int] constant that shares no bit with
    the other five flags, two such configurations with the same XML are
    the same configuration, whatever the display modes were when each was
    serialized.  (A framebuffer value that no enumerator names is written
    as the first enumerator is, and cannot be told from it.) *)
Theorem BuildXMLConfiguration_injective
        (config1 config2 : TestConfig) (m1 m2 : machine) :
  INT_MIN <= WGLDIAG_OPTIONS_FS_EX <= INT_MAX ->
  FS_EX_disjoint ->
  framebuffer_enumerators config1 ->
  framebuffer_enumerators config2 ->
  fst (BuildXMLConfiguration config1 m1) = fst (BuildXMLConfiguration config2 m2) ->
  config1 = config2.
Proof.
  intros Hint Hdisj (Hff1 & Hft1) (Hff2 & Hft2) H.
  apply BuildXMLConfiguration_values in H.
  unfold xml_elements in H. cbn [map snd] in H.
  injection H as Hopt Hdur Hms Han Hlod _ Hren Hpf _ Hfbt Hfbf Hsc Hw Hh.
  apply to_string_inj in Hopt, Hdur, Hms, Han, Hlod, Hren, Hpf, Hsc, Hw, Hh.
  rewrite !(BuildOptions_bitmask _ Hint) in Hopt.
  destruct (flags_of_option_bitmask config1 Hdisj)
    as (F1 & F2 & F3 & F4 & F5 & F6).
  destruct (flags_of_option_bitmask config2 Hdisj)
    as (G1 & G2 & G3 & G4 & G5 & G6).
  rewrite Hopt in F1, F2, F3, F4, F5, F6.
  rewrite G1 in F1. rewrite G2 in F2. rewrite G3 in F3.
  rewrite G4 in F4. rewrite G5 in F5. rewrite G6 in F6.
  clear Hopt G1 G2 G3 G4 G5 G6.
  destruct config1 as [r1 fs1 w1 h1 vs1 fg1 tr1 cl1 ms1 an1 lod1 ff1 ft1 sc1 du1 db1 pf1].
  destruct config2 as [r2 fs2 w2 h2 vs2 fg2 tr2 cl2 ms2 an2 lod2 ff2 ft2 sc2 du2 db2 pf2].
  cbn [renderer fullscreen width height vsync fog transparency userClipPlane
       multisampleCount maxAnisotropy textureLOD fbFormat fbType scene
       testDurationSeconds enableDebugOutput pixelFormat] in *.
  unfold RendererType_to_int in Hren. unfold SceneType_to_int in Hsc.
  assert (ft1 = ft2).
  { unfold FramebufferType_enumerators in Hft1, Hft2.
    In_cases Hft1; In_cases Hft2; subst ft1 ft2;
      first [reflexivity | discriminate Hfbt]. }
  assert (ff1 = ff2).
  { unfold FramebufferFormat_enumerators in Hff1, Hff2.
    In_cases Hff1; In_cases Hff2; subst ff1 ff2;
      first [reflexivity | discriminate Hfbf]. }
  subst. reflexivity.
Qed.

(* ---------------------------------------------------------------- *)
(** *** Further properties: results and the files a tester opens *)

(** X17. Results are consistent: whatever the library answers, a result
    with [passed = true] carries no error message, and a result with
    [passed = false] carries the default FPS [0.0]. *)
Theorem RunSingleTest_result_shape (config : TestConfig) (m : machine) :
  let r := fst (RunSingleTest config m) in
  if passed r then errorMessage r = "" else averageFPS r = double_zero.
Proof.
  cbv zeta.
  assert (Hready : forall m0 : machine,
             m_initialized (self m0) = true ->
             if passed (fst (RunSingleTest config m0))
             then errorMessage (fst (RunSingleTest config m0)) = ""
             else averageFPS (fst (RunSingleTest config m0)) = double_zero).
  { intros m0 Hini.
    destruct (RunSingleTest_initialized config m0 Hini) as (-> & _).
    unfold translate_record.
    destruct (fst (call_oevRunRenderingTests plat _ _ _)) as [r |];
      [| reflexivity].
    destruct (oevSDK.result r) as [status |]; [| reflexivity].
    destruct (String.eqb status "OK"); reflexivity. }
  destruct (m_initialized (self m)) eqn:Hini; [now apply Hready |].
  pose proof (RunSingleTest_uninitialized config m Hini) as H.
  pose proof (Initialize_flag m) as Hflag.
  destruct (fst (Initialize m)); rewrite H; [now apply Hready | reflexivity].
Qed.

(** X18. The files a new tester opens: when [Initialize] succeeds on a
    tester constructed with [dllPath] and [resourcePath], it has made
    exactly these calls, in this order: the DPI set-up, one load of
    [infogl.dll] (from [dllPath] when that is not empty), the look-up of
    the three entry points, and one [oevInitWad] on [resourcePath]
    ([GLVIEW.RMX] when that is empty). *)
Theorem Initialize_call_sequence (dllPath resourcePath : string)
        (x : ExtState) (u : User) (tr : list (Event double)) :
  let m := mkMachine (RenderingTester_new dllPath resourcePath) x u tr in
  let fullPath :=
    if String.eqb dllPath "" then "infogl.dll" else dllPath ++ "\infogl.dll" in
  let package :=
    if String.eqb resourcePath "" then "GLVIEW.RMX" else resourcePath in
  fst (Initialize m) = true ->
  let t := self (snd (Initialize m)) in
  trace (snd (Initialize m)) =
  (tr ++ [ CallSetupDPIAwareness;
           CallLoadLibraryA fullPath;
           CallGetProcAddress (hLibrary (m_pImpl t)) "oevInitWad";
           CallGetProcAddress (hLibrary (m_pImpl t)) "oevReadCpuid";
           CallGetProcAddress (hLibrary (m_pImpl t)) "oevRunRenderingTests";
           CallInitWad (funcInitWad (m_pImpl t)) package;
           LogLine "[INFO] " "RenderingTester initialized successfully" [] ])%list.
Proof.
  cbv zeta. unfold RenderingTester_new. run_machine.
  case_Initialize; cbn [andb]; run_machine; intros Hok; try discriminate Hok.
  rewrite <- !app_assoc. reflexivity.
Qed.

End Wrapper.

(* ---------------------------------------------------------------- *)
(** *** The model at work on the sample installation *)

(** The tester after a successful [Initialize] on the healthy platform. *)
Lemma sample_ready_initialized :
  Initialize sample_platform sample_machine =
  (true,
   mkMachine
     (mkRenderingTester (mkImpl 4194304 4198400 4198416 4198432)
                        "" "GLVIEW.RMX" "" true)
     O []
     [ CallSetupDPIAwareness;
       CallLoadLibraryA "infogl.dll";
       CallGetProcAddress 4194304 "oevInitWad";
       CallGetProcAddress 4194304 "oevReadCpuid";
       CallGetProcAddress 4194304 "oevRunRenderingTests";
       CallInitWad 4198400 "GLVIEW.RMX";
       LogLine "[INFO] " "RenderingTester initialized successfully" [] ]).
Proof. vm_compute. reflexivity. Qed.

Example sample_all_flags_xml :
  fst (BuildXMLConfiguration sample_FS_EX sample_platform sample_all_flags
                             sample_machine) =
  "<root><option>1588256</option>" ++ LF ++
  "<duration>15</duration>" ++ LF ++
  "<multisample>8</multisample>" ++ LF ++
  "<anisotropy>16</anisotropy>" ++ LF ++
  "<texturelod>-1</texturelod>" ++ LF ++
  "<displaymode>1</displaymode>" ++ LF ++
  "<renderer>15</renderer>" ++ LF ++
  "<pixelformat>1</pixelformat>" ++ LF ++
  "<test>1.0</test>" ++ LF ++
  "<fbenable>FrameBufferObject</fbenable>" ++ LF ++
  "<fbformat>HDR</fbformat>" ++ LF ++
  "<scene>4</scene>" ++ LF ++
  "<width>1920</width>" ++ LF ++
  "<height>1080</height>" ++ LF ++
  "</root>" ++ LF.
Proof. vm_compute. reflexivity. Qed.

(** Nothing is validated: values that no enumerator names and negative
    sizes are written as they are; the unnamed renderer is tested as 4.6,
    the unnamed framebuffer values are written as the first enumerators. *)
Example sample_out_of_range_xml :
  fst (BuildXMLConfiguration sample_FS_EX sample_platform sample_out_of_range
                             sample_machine) =
  "<root><option>0</option>" ++ LF ++
  "<duration>-10</duration>" ++ LF ++
  "<multisample>1000000</multisample>" ++ LF ++
  "<anisotropy>-16</anisotropy>" ++ LF ++
  "<texturelod>2147483647</texturelod>" ++ LF ++
  "<displaymode>-1</displaymode>" ++ LF ++
  "<renderer>99</renderer>" ++ LF ++
  "<pixelformat>0</pixelformat>" ++ LF ++
  "<test>4.6</test>" ++ LF ++
  "<fbenable>Default</fbenable>" ++ LF ++
  "<fbformat>Linear</fbformat>" ++ LF ++
  "<scene>-3</scene>" ++ LF ++
  "<width>-5</width>" ++ LF ++
  "<height>0</height>" ++ LF ++
  "</root>" ++ LF.
Proof. vm_compute. reflexivity. Qed.

(** Two configurations that differ in their framebuffer fields only, one
    of them holding values that no enumerator names, and the same XML. *)
Example unnamed_framebuffer_values_collide :
  let named :=
    {| renderer := 99;
       fullscreen := false; width := -5; height := 0; vsync := false;
       fog := false; transparency := false; userClipPlane := false;
       multisampleCount := 1000000; maxAnisotropy := -16;
       textureLOD := 2147483647;
       fbFormat := RGB_Linear; fbType := Default;
       scene := -3; testDurationSeconds := -10;
       enableDebugOutput := false;
       pixelFormat := 0 |} in
  named <> sample_out_of_range
  /\ fst (BuildXMLConfiguration sample_FS_EX sample_platform named sample_machine)
     = fst (BuildXMLConfiguration sample_FS_EX sample_platform
              sample_out_of_range sample_machine).
Proof. cbv zeta. split; [discriminate | vm_compute; reflexivity]. Qed.

Example sample_batch_results :
  let out := RunMultipleTests (fun z : Z => z) 0 sample_FS_EX sample_platform
               sample_batch (Some record_progress) sample_machine in
  fst out =
    [ mkTestResult 7 true 60 "";
      mkTestResult 8 false 0 "GL error";
      mkTestResult 0 false 0 "No test results returned" ]
  /\ user (snd out) =
    [ (1, 3, mkTestResult 7 true 60 "");
      (2, 3, mkTestResult 8 false 0 "GL error");
      (3, 3, mkTestResult 0 false 0 "No test results returned") ].
Proof. vm_compute. split; reflexivity. Qed.

Example sample_missing_symbol_result :
  fst (RunSingleTest (fun z : Z => z) 0 sample_FS_EX
         sample_platform_missing_symbol CreateDefaultConfig sample_machine) =
  mkTestResult 0 false 0 "Failed to load infogl.dll or required functions".
Proof. vm_compute. reflexivity. Qed.

(** C2 on the sample batch. *)
Lemma RunMultipleTests_sequential_witness :
  Z.of_nat (length sample_batch) <= INT_MAX
  /\ (let out := RunMultipleTests (fun z : Z => z) 0 sample_FS_EX sample_platform
                   sample_batch (Some record_progress) sample_machine in
      length (fst out) = length sample_batch
      /\ Sequential (fun z : Z => z) 0 sample_FS_EX sample_platform to_int
                    (Some record_progress) 3 0 sample_machine sample_batch
                    (fst out) (snd out)
      /\ Sequential (fun z : Z => z) 0 sample_FS_EX sample_platform
                    (fun z : Z => z)
                    (Some record_progress) 3 0 sample_machine sample_batch
                    (fst out) (snd out)
      /\ user (snd out) =
         fold_left (fun u kr => record_progress (fst kr) 3 (snd kr) u)
                   (combine [1; 2; 3] (fst out)) []).
Proof.
  assert (H : Z.of_nat (length sample_batch) <= INT_MAX)
    by (unfold INT_MAX; cbn; lia).
  split; [exact H |].
  pose proof (RunMultipleTests_sequential (fun z : Z => z) 0 sample_FS_EX
                sample_platform sample_batch record_progress sample_machine)
    as (Hlen & Hint & _ & _ & _ & Hbounded).
  destruct (Hbounded H) as (Hseq & Huser).
  split; [exact Hlen |]. split; [exact Hint |].
  split; [exact Hseq | exact Huser].
Defined.

(** C3 with every flag on. *)
Lemma option_element_witness :
  INT_MIN <= sample_FS_EX <= INT_MAX
  /\ exists rest,
       fst (BuildXMLConfiguration sample_FS_EX sample_platform sample_all_flags
                                  sample_machine) =
       "<root><option>" ++ to_string (option_bitmask sample_FS_EX sample_all_flags)
       ++ "</option>" ++ rest.
Proof.
  assert (H : INT_MIN <= sample_FS_EX <= INT_MAX)
    by (unfold INT_MIN, INT_MAX, sample_FS_EX; cbn; lia).
  split; [exact H |].
  exact (proj1 (option_element_is_or_of_enabled_flags sample_FS_EX
                  sample_platform sample_all_flags sample_machine H)).
Defined.

(** C6 on the installation whose library lacks [oevReadCpuid]. *)
Lemma library_binding_witness :
  m_initialized (self sample_machine) = false
  /\ fst (InitLibrary sample_platform_missing_symbol
            (snd (SetupDPIAwareness sample_platform_missing_symbol sample_machine)))
     = false
  /\ fst (Initialize sample_platform_missing_symbol sample_machine) = false
  /\ m_lastError (self (snd (Initialize sample_platform_missing_symbol
                                        sample_machine)))
     = "Failed to load infogl.dll or required functions"
  /\ m_initialized (self (snd (Initialize sample_platform_missing_symbol
                                          sample_machine)))
     = false.
Proof.
  split; [reflexivity |]. split; [reflexivity |].
  exact (proj2 (library_binding_all_or_nothing sample_platform_missing_symbol
                  sample_machine eq_refl) eq_refl).
Defined.

(** C7: a fresh tester and an initialised one, same display modes. *)
Lemma BuildXMLConfiguration_deterministic_witness :
  CreateDefaultConfig = CreateDefaultConfig
  /\ sys_display_modes sample_platform (ext sample_machine)
     = sys_display_modes sample_platform
         (ext (snd (Initialize sample_platform sample_machine)))
  /\ fst (BuildXMLConfiguration sample_FS_EX sample_platform CreateDefaultConfig
            sample_machine)
     = fst (BuildXMLConfiguration sample_FS_EX sample_platform CreateDefaultConfig
              (snd (Initialize sample_platform sample_machine))).
Proof.
  split; [reflexivity |]. split; [reflexivity |].
  exact (proj1 (BuildXMLConfiguration_deterministic sample_FS_EX sample_platform
                  CreateDefaultConfig CreateDefaultConfig sample_machine
                  (snd (Initialize sample_platform sample_machine))
                  eq_refl eq_refl)).
Defined.

(** C9 on the tester a successful [Initialize] leaves. *)
Lemma Initialize_idempotent_witness :
  let ready := snd (Initialize sample_platform sample_machine) in
  fst (IsInitialized ready) = true
  /\ Initialize sample_platform ready = (true, ready).
Proof.
  cbv zeta. split; [reflexivity |].
  exact (proj1 (Initialize_idempotent sample_platform
                  (snd (Initialize sample_platform sample_machine)) eq_refl)).
Defined.

(** C10 on an initialised tester whose next test fails. *)
Lemma RunSingleTest_keeps_last_error_witness :
  fst (IsInitialized sample_ready) = true
  /\ passed (fst (RunSingleTest (fun z : Z => z) 0 sample_FS_EX sample_platform
                    CreateDefaultConfig sample_ready)) = false
  /\ fst (GetLastError
            (snd (RunSingleTest (fun z : Z => z) 0 sample_FS_EX sample_platform
                    CreateDefaultConfig sample_ready)))
     = fst (GetLastError sample_ready).
Proof.
  split; [reflexivity |]. split; [vm_compute; reflexivity |].
  exact (proj1 (RunSingleTest_keeps_last_error (fun z : Z => z) 0 sample_FS_EX
                  sample_platform CreateDefaultConfig sample_ready eq_refl)).
Defined.

Lemma fold_left_record_progress (total : Z) (l : list (Z * TestResult Z))
      (log : progress_log) :
  fold_left (fun u kr => record_progress (fst kr) total (snd kr) u) l log =
  (log ++ map (fun kr => (fst kr, total, snd kr)) l)%list.
Proof.
  revert log. induction l as [| kr l IH]; intros log; cbn [fold_left map].
  - now rewrite app_nil_r.
  - rewrite IH. unfold record_progress. now rewrite <- app_assoc.
Qed.

(** C2 as stated, for every vector, fails on a batch of 2^31
    configurations: the callback is told that the total is -2147483648. *)
Lemma RunMultipleTests_total_count_wraps :
  let configs := repeat CreateDefaultConfig (Z.to_nat 2147483648) in
  let out := RunMultipleTests (fun z : Z => z) 0 sample_FS_EX sample_platform
               configs (Some record_progress) sample_machine in
  Z.of_nat (length configs) = 2147483648
  /\ exists r rest, user (snd out) = (1, -2147483648, r) :: rest.
Proof.
  cbv zeta.
  assert (HN : Z.of_nat (Z.to_nat 2147483648) = 2147483648)
    by (apply Z2Nat.id; lia).
  revert HN. generalize (Z.to_nat 2147483648). intros n HN.
  split; [rewrite repeat_length; exact HN |].
  rewrite RunMultipleTests_user, fold_left_record_progress.
  pose proof (RunMultipleTests_length (fun z : Z => z) 0 sample_FS_EX
                sample_platform (repeat CreateDefaultConfig n)
                (Some record_progress) sample_machine) as Hlen.
  rewrite repeat_length in *. rewrite HN.
  destruct n as [| n']; [discriminate HN |].
  destruct (fst (RunMultipleTests _ _ _ _ _ _ _)) as [| r results];
    [discriminate Hlen |].
  cbn [seq map combine fst snd user sample_machine app].
  exists r. eexists. reflexivity.
Qed.

(* ---------------------------------------------------------------- *)
(** *** The further properties on the sample installations *)

(** X5 on the initialised sample tester. *)
Lemma well_formed_invariant_witness :
  well_formed (self sample_ready)
  /\ well_formed
       (self (snd (RunSingleTest (fun z : Z => z) 0 sample_FS_EX sample_platform
                     CreateDefaultConfig sample_ready))).
Proof.
  assert (H : well_formed (self sample_ready)).
  { intros _. cbn. repeat split; discriminate. }
  split; [exact H |].
  destruct (well_formed_invariant (fun z : Z => z) 0 sample_FS_EX sample_platform
              sample_ready H) as (_ & Hsingle & _).
  exact (Hsingle CreateDefaultConfig).
Defined.

(** X9 on the initialised sample tester and the sample batch. *)
Lemma RunMultipleTests_initialized_witness :
  m_initialized (self sample_ready) = true
  /\ (let m' := snd (RunMultipleTests (fun z : Z => z) 0 sample_FS_EX
                       sample_platform sample_batch (Some record_progress)
                       sample_ready) in
      self m' = self sample_ready
      /\ count_calls is_RunRenderingTests (trace m') = 3%nat
      /\ count_calls is_LoadLibraryA (trace m') = 0%nat).
Proof.
  split; [reflexivity |].
  exact (RunMultipleTests_initialized (fun z : Z => z) 0 sample_FS_EX
           sample_platform sample_batch (Some record_progress) sample_ready
           eq_refl).
Defined.

(** X10 on the installation without the library. *)
Lemma RunMultipleTests_library_missing_witness :
  (forall path x, fst (sys_LoadLibraryA sample_platform_no_library path x) = 0)
  /\ m_initialized (self sample_machine) = false
  /\ (let out := RunMultipleTests (fun z : Z => z) 0 sample_FS_EX
                   sample_platform_no_library sample_batch
                   (Some record_progress) sample_machine in
      fst out
      = repeat (mkTestResult 0 false 0
                  "Failed to load infogl.dll or required functions") 3
      /\ m_initialized (self (snd out)) = false
      /\ count_calls is_LoadLibraryA (trace (snd out)) = 3%nat
      /\ count_calls is_RunRenderingTests (trace (snd out)) = 0%nat).
Proof.
  split; [reflexivity |]. split; [reflexivity |].
  exact (RunMultipleTests_library_missing (fun z : Z => z) 0 sample_FS_EX
           sample_platform_no_library sample_batch (Some record_progress)
           sample_machine (fun _ _ => eq_refl) eq_refl).
Defined.

(** X11 on the installation with the rejected package. *)
Lemma Initialize_resource_rejected_witness :
  m_initialized (self sample_machine) = false
  /\ fst (InitLibrary sample_platform_bad_package
            (snd (SetupDPIAwareness sample_platform_bad_package sample_machine)))
     = true
  /\ fst (Initialize sample_platform_bad_package sample_machine) = false
  /\ m_lastError (self (snd (Initialize sample_platform_bad_package
                                        sample_machine)))
     = "Failed to initialize resource package: GLVIEW.RMX"
  /\ hLibrary (m_pImpl (self (snd (Initialize sample_platform_bad_package
                                              sample_machine)))) <> 0.
Proof.
  split; [reflexivity |]. split; [reflexivity |].
  destruct (Initialize_resource_rejected sample_platform_bad_package
              sample_machine eq_refl eq_refl eq_refl)
    as (H1 & H2 & _ & H4 & _).
  split; [exact H1 |]. split; [exact H2 | exact H4].
Defined.

(** X13: a fresh tester and one that has failed before, on the healthy
    installation. *)
Lemma Initialize_ignores_history_witness :
  m_initialized (self sample_machine) = false
  /\ m_initialized (self sample_after_failure) = false
  /\ m_lastError (self sample_machine) <> m_lastError (self sample_after_failure)
  /\ fst (Initialize sample_platform sample_machine)
     = fst (Initialize sample_platform sample_after_failure).
Proof.
  split; [reflexivity |]. split; [reflexivity |]. split; [discriminate |].
  exact (proj1 (Initialize_ignores_history sample_platform sample_machine
                  sample_after_failure eq_refl eq_refl eq_refl eq_refl eq_refl)).
Defined.

(** X14 on the initialised sample tester. *)
Lemma GetCPUInfo_result_witness :
  well_formed (self sample_ready)
  /\ fst (GetCPUInfo sample_platform sample_ready) = "Sample CPU".
Proof.
  assert (H : well_formed (self sample_ready)).
  { intros _. cbn. repeat split; discriminate. }
  split; [exact H |].
  exact (proj1 (proj1 (GetCPUInfo_result sample_platform sample_ready H))).
Defined.

(** X15: 800x600 on a display that offers 640x480 and 1920x1080. *)
Lemma unsupported_resolution_witness :
  (forall dm, In dm (sys_display_modes sample_platform (ext sample_ready)) ->
              Utils.mode_matches (width sample_unsupported)
                                 (height sample_unsupported) dm = false)
  /\ contains "<displaymode>-1</displaymode>"
              (fst (BuildXMLConfiguration sample_FS_EX sample_platform
                      sample_unsupported sample_ready)) = true.
Proof.
  assert (H : forall dm,
             In dm (sys_display_modes sample_platform (ext sample_ready)) ->
             Utils.mode_matches (width sample_unsupported)
                                (height sample_unsupported) dm = false).
  { intros dm [<- | [<- | []]]; reflexivity. }
  split; [exact H |].
  exact (proj1 (unsupported_resolution_is_sent (fun z : Z => z) 0 sample_FS_EX
                  sample_platform sample_unsupported sample_ready H)).
Defined.

(** X16: the same configuration serialized on two machines. *)
Lemma BuildXMLConfiguration_injective_witness :
  INT_MIN <= sample_FS_EX <= INT_MAX
  /\ FS_EX_disjoint sample_FS_EX
  /\ framebuffer_enumerators sample_all_flags
  /\ fst (BuildXMLConfiguration sample_FS_EX sample_platform sample_all_flags
            sample_machine)
     = fst (BuildXMLConfiguration sample_FS_EX sample_platform sample_all_flags
              sample_ready)
  /\ sample_all_flags = sample_all_flags.
Proof.
  assert (H1 : INT_MIN <= sample_FS_EX <= INT_MAX)
    by (unfold INT_MIN, INT_MAX, sample_FS_EX; cbn; lia).
  assert (H2 : FS_EX_disjoint sample_FS_EX) by (repeat split; reflexivity).
  assert (H3 : framebuffer_enumerators sample_all_flags)
    by (split; cbn; auto).
  assert (H4 : fst (BuildXMLConfiguration sample_FS_EX sample_platform
                      sample_all_flags sample_machine)
               = fst (BuildXMLConfiguration sample_FS_EX sample_platform
                        sample_all_flags sample_ready))
    by (vm_compute; reflexivity).
  split; [exact H1 |]. split; [exact H2 |]. split; [exact H3 |].
  split; [exact H4 |].
  exact (BuildXMLConfiguration_injective sample_FS_EX sample_platform
           sample_all_flags sample_all_flags sample_machine sample_ready
           H1 H2 H3 H3 H4).
Defined.

(** X18 on the healthy installation. *)
Lemma Initialize_call_sequence_witness :
  fst (Initialize sample_platform sample_machine) = true
  /\ trace (snd (Initialize sample_platform sample_machine)) =
     [ CallSetupDPIAwareness;
       CallLoadLibraryA "infogl.dll";
       CallGetProcAddress 4194304 "oevInitWad";
       CallGetProcAddress 4194304 "oevReadCpuid";
       CallGetProcAddress 4194304 "oevRunRenderingTests";
       CallInitWad 4198400 "GLVIEW.RMX";
       LogLine "[INFO] " "RenderingTester initialized successfully" [] ].
Proof.
  split; [reflexivity |].
  exact (Initialize_call_sequence sample_platform "" "" O [] [] eq_refl).
Defined.

(** A stale error: the tester fails on the installation that lacks a
    symbol, then succeeds on the healthy one, and still reports the old
    error. *)
Example stale_last_error :
  let failed := snd (Initialize sample_platform_missing_symbol sample_machine) in
  let retried := Initialize sample_platform failed in
  fst retried = true
  /\ fst (GetLastError (snd retried))
     = "Failed to load infogl.dll or required functions".
Proof. vm_compute. split; reflexivity. Qed.

End RenderTest.

(* ================================================================== *)
(** ** The display-mode helper of the older sample: properties *)

Module oevTest_Properties.
Import oevTest.

Section Loop.

Variable modes : list DEVMODE.
Variables width height : Z.

Local Abbreviation no_match_below := (oevTest.no_match_below modes width height).
Local Abbreviation invariant := (oevTest.invariant modes width height).

Lemma invariant_start : invariant GetDisplayMode_start.
Proof.
  cbn. split; [lia |]. intros j dm Hj. lia.
Qed.

Lemma invariant_step (c : Config) :
  invariant c -> invariant (step modes width height c).
Proof.
  destruct c as [[| | |] [k dv] | v]; cbn [invariant step n devmode].
  - auto.
  - intros [Hk Hno]. unfold EnumDisplaySettings.
    destruct (k <? 0) eqn:Hneg; [apply Z.ltb_lt in Hneg; lia |].
    destruct (nth_error modes (Z.to_nat k)) as [dm |] eqn:Hnth;
      cbn [invariant n devmode]; auto.
  - intros (Hk & Hnth & Hno).
    destruct (size_matches width height dv) eqn:Hm; cbn [invariant n devmode].
    + split; [exact Hk |]. exists dv. auto.
    + split; [lia |]. intros j dm Hj Hjnth.
      destruct (Z.eq_dec j k) as [-> | Hne].
      * rewrite Hnth in Hjnth. injection Hjnth as <-. exact Hm.
      * apply (Hno j dm); [lia | exact Hjnth].
  - contradiction.
  - auto.
Qed.

Lemma invariant_run (fuel : nat) :
  forall c : Config, invariant c -> invariant (run modes width height fuel c).
Proof.
  induction fuel as [| fuel IH]; intros c Hc; cbn [run]; [exact Hc |].
  apply IH, invariant_step, Hc.
Qed.

Lemma run_add (f1 f2 : nat) (c : Config) :
  run modes width height (f1 + f2) c
  = run modes width height f2 (run modes width height f1 c).
Proof.
  revert c. induction f1 as [| f1 IH]; intros c; cbn [run Nat.add]; auto.
Qed.



(** Once returned, always returned. *)
Lemma run_Returned (fuel : nat) (v : Z) :
  run modes width height fuel (Returned v) = Returned v.
Proof.
  induction fuel as [| fuel IH]; cbn [run step]; auto.
Qed.

(** On modes whose sizes are [DWORD]s and a request that fits an [int],
    the comparison of the older helper (request converted to unsigned) and
    that of [Utils::FindDisplayMode] (mode size converted to [int]) agree. *)
Lemma size_matches_mode_matches (dm : DEVMODE) :
  0 <= dmPelsWidth dm < 2 ^ 32 -> 0 <= dmPelsHeight dm < 2 ^ 32 ->
  INT_MIN <= width <= INT_MAX -> INT_MIN <= height <= INT_MAX ->
  size_matches width height dm = RenderTest.Utils.mode_matches width height dm.
Proof.
  unfold size_matches, RenderTest.Utils.mode_matches, to_uint, to_int,
    INT_MIN, INT_MAX.
  change (2 ^ 32) with 4294967296. change (2 ^ 31) with 2147483648.
  intros Hw Hh Hwidth Hheight.
  assert (Heq : forall a d : Z,
             0 <= d < 4294967296 -> -2147483648 <= a <= 2147483647 ->
             (a mod 4294967296 =? d)
             = (a =? (d + 2147483648) mod 4294967296 - 2147483648)).
  { intros a d Hd Ha.
    pose proof (Z.div_mod a 4294967296 ltac:(lia)) as Ha1.
    pose proof (Z.mod_pos_bound a 4294967296 ltac:(lia)) as Ha2.
    pose proof (Z.div_mod (d + 2147483648) 4294967296 ltac:(lia)) as Hd1.
    pose proof (Z.mod_pos_bound (d + 2147483648) 4294967296 ltac:(lia)) as Hd2.
    destruct (Z.eqb_spec (a mod 4294967296) d) as [E1 | E1];
      destruct (Z.eqb_spec a ((d + 2147483648) mod 4294967296 - 2147483648))
        as [E2 | E2]; try reflexivity; exfalso; lia. }
  rewrite (Heq width _ Hw Hwidth), (Heq height _ Hh Hheight). reflexivity.
Qed.

(** From the test of the inner loop, the older helper returns what the
    search for the first match returns, when that is not [-1]. *)
Lemma inner_loop_returns_first (rest : list DEVMODE) :
  forall (pre : list DEVMODE) (dv : DEVMODE),
    modes = (pre ++ rest)%list ->
    (forall dm, In dm rest ->
                size_matches width height dm
                = RenderTest.Utils.mode_matches width height dm) ->
    RenderTest.Utils.first_match_from rest width height (Z.of_nat (length pre))
    <> -1 ->
    exists fuel : nat,
      run modes width height fuel
          (Running WhileTest (mkLocals (Z.of_nat (length pre)) dv))
      = Returned (RenderTest.Utils.first_match_from rest width height
                    (Z.of_nat (length pre))).
Proof.
  induction rest as [| dm rest IH]; intros pre dv Hmodes Hsame Hfound;
    cbn [RenderTest.Utils.first_match_from] in *.
  - contradiction.
  - assert (Henum : EnumDisplaySettings modes (Z.of_nat (length pre)) = Some dm).
    { unfold EnumDisplaySettings.
      destruct (Z.of_nat (length pre) <? 0) eqn:Hneg;
        [apply Z.ltb_lt in Hneg; lia |].
      rewrite Nat2Z.id, Hmodes, nth_error_app2 by lia.
      now rewrite Nat.sub_diag. }
    assert (Hdm : size_matches width height dm
                  = RenderTest.Utils.mode_matches width height dm)
      by (apply Hsame; left; reflexivity).
    destruct (RenderTest.Utils.mode_matches width height dm) eqn:Hm.
    + exists 2%nat. cbn [run step n devmode]. rewrite Henum.
      cbn [step n devmode]. now rewrite Hdm.
    + destruct (IH (pre ++ [dm])%list dm) as (fuel & Hrun).
      * rewrite <- app_assoc. exact Hmodes.
      * intros dm' Hin. apply Hsame. right. exact Hin.
      * rewrite length_app. cbn [length].
        replace (Z.of_nat (length pre + 1)) with (Z.of_nat (length pre) + 1)
          by lia.
        exact Hfound.
      * exists (2 + fuel)%nat. rewrite run_add.
        cbn [run step n devmode]. rewrite Henum. cbn [step n devmode].
        rewrite Hdm. rewrite length_app in Hrun. cbn [length] in Hrun.
        replace (Z.of_nat (length pre + 1)) with (Z.of_nat (length pre) + 1)
          in Hrun by lia.
        exact Hrun.
Qed.

(** X4. The older [GetDisplayMode] and [Utils::FindDisplayMode] agree
    wherever the older one answers: on display modes whose sizes are
    [DWORD]s and a request that fits an [int], when [FindDisplayMode]
    finds index [r] the older helper returns [r] too (after finitely many
    steps, and for good), and when [FindDisplayMode] returns [-1] the
    older helper never returns. *)
Theorem GetDisplayMode_agrees_with_FindDisplayMode :
  (forall dm, In dm modes ->
              0 <= dmPelsWidth dm < 2 ^ 32 /\ 0 <= dmPelsHeight dm < 2 ^ 32) ->
  INT_MIN <= width <= INT_MAX ->
  INT_MIN <= height <= INT_MAX ->
  let r := RenderTest.Utils.FindDisplayMode modes width height in
  if r =? -1
  then forall fuel : nat,
         exists pc l, GetDisplayMode modes width height fuel = Running pc l
  else exists fuel0 : nat,
         forall fuel : nat,
           (fuel0 <= fuel)%nat ->
           GetDisplayMode modes width height fuel = Returned r.
Proof.
  intros Hdword Hwidth Hheight. cbv zeta.
  assert (Hsame : forall dm, In dm modes ->
                    size_matches width height dm
                    = RenderTest.Utils.mode_matches width height dm).
  { intros dm Hin. destruct (Hdword dm Hin).
    now apply size_matches_mode_matches. }
  unfold RenderTest.Utils.FindDisplayMode.
  pose proof (RenderTest.FindDisplayMode_loop_eq modes width height
                (length modes) 0%nat ltac:(lia)) as Hloop.
  cbn [Z.of_nat skipn] in Hloop. rewrite Hloop.
  destruct (Z.eqb_spec (RenderTest.Utils.first_match_from modes width height 0) (-1))
    as [Hnone | Hfound].
  - intros fuel.
    pose proof (RenderTest.first_match_from_spec width height modes []
                  ltac:(intros dm []))
      as Hspec. cbv zeta in Hspec. cbn [length Z.of_nat app] in Hspec.
    destruct Hspec as [(_ & Hno) | (Hr & _)]; [| lia].
    pose proof (invariant_run fuel _ invariant_start) as Hinv.
    fold (GetDisplayMode modes width height fuel) in Hinv.
    destruct (GetDisplayMode modes width height fuel) as [pc l | v]; [eauto |].
    destruct Hinv as (_ & dm & Hnth & Hm).
    apply nth_error_In in Hnth.
    rewrite (Hsame dm Hnth), (Hno dm Hnth) in Hm. discriminate.
  - destruct (inner_loop_returns_first modes [] (mkDEVMODE 0 0) eq_refl Hsame Hfound)
      as (fuel & Hrun).
    cbn [length Z.of_nat] in Hrun.
    exists (S fuel). intros fuel' Hle.
    replace fuel' with (S fuel + (fuel' - S fuel))%nat by lia.
    unfold GetDisplayMode. rewrite run_add.
    change (run modes width height (S fuel) GetDisplayMode_start)
      with (run modes width height fuel
                (Running WhileTest (mkLocals 0 (mkDEVMODE 0 0)))).
    rewrite Hrun. apply run_Returned.
Qed.

End Loop.


(** X4 on two modes, the second one requested. *)
Lemma GetDisplayMode_agrees_witness :
  (forall dm, In dm [mkDEVMODE 640 480; mkDEVMODE 1920 1080] ->
              0 <= dmPelsWidth dm < 2 ^ 32 /\ 0 <= dmPelsHeight dm < 2 ^ 32)
  /\ INT_MIN <= 1920 <= INT_MAX
  /\ INT_MIN <= 1080 <= INT_MAX
  /\ exists fuel0 : nat,
       forall fuel : nat,
         (fuel0 <= fuel)%nat ->
         GetDisplayMode [mkDEVMODE 640 480; mkDEVMODE 1920 1080] 1920 1080 fuel
         = Returned 1.
Proof.
  assert (H1 : forall dm, In dm [mkDEVMODE 640 480; mkDEVMODE 1920 1080] ->
                 0 <= dmPelsWidth dm < 2 ^ 32 /\ 0 <= dmPelsHeight dm < 2 ^ 32).
  { intros dm [<- | [<- | []]]; cbn; lia. }
  assert (H2 : INT_MIN <= 1920 <= INT_MAX) by (unfold INT_MIN, INT_MAX; lia).
  assert (H3 : INT_MIN <= 1080 <= INT_MAX) by (unfold INT_MIN, INT_MAX; lia).
  split; [exact H1 |]. split; [exact H2 |]. split; [exact H3 |].
  exact (GetDisplayMode_agrees_with_FindDisplayMode
           [mkDEVMODE 640 480; mkDEVMODE 1920 1080] 1920 1080 H1 H2 H3).
Defined.

Example GetDisplayMode_finds_second_mode :
  GetDisplayMode [mkDEVMODE 640 480; mkDEVMODE 1920 1080] 1920 1080 5
  = Returned 1.
Proof. reflexivity. Qed.

Example GetDisplayMode_spins_at_end_of_list :
  GetDisplayMode [mkDEVMODE 640 480; mkDEVMODE 1920 1080] 800 600 1000
  = Running ForHead (mkLocals 2 (mkDEVMODE 1920 1080)).
Proof. vm_compute. reflexivity. Qed.

End oevTest_Properties.
